(** * tourist-safe-watch: the list pages' filters, statistics and badges

    A shallow embedding of the logic of the three list pages of the
    dashboard,

    - [src/pages/DigitalIds.tsx]  (module [DigitalIds]),
    - [src/pages/Alerts.tsx]      (module [Alerts]),
    - the E-FIR case page         (module [EFir]),

    followed by the properties of that logic.  Every page is a React
    function component: a function from its state (the [useState] cells) to
    what it displays.  Here each page is a function [render] from the
    collection and the state cells to a [View] holding the statistics tiles
    and the table rows.  The collections are literals in the source
    ([mockTouristData], [mockAlerts], [mockEFIRCases]); the functions below
    take the collection as an argument and the literals are given next to
    them.

    Strings are [string], a JavaScript string being held in its UTF-8
    encoding (one well-formed string occurs in another as code units
    exactly when it does so as bytes); the JavaScript string methods the
    pages call are modelled in [JsString].  The two case conversions,
    [String.prototype.toLowerCase] and [String.prototype.toUpperCase], are
    built into the language and follow the Unicode tables: they are taken
    as the methods of the class [JsString.CaseMapping], of which only their
    effect on strings of ASCII characters is fixed.  Every property below
    holds for every instance of the class; [JsString.asciiCaseMapping] is
    the instance that is used, by name, to evaluate the pages on ASCII
    data, where all instances agree. *)

From Stdlib Require Import List String Ascii Bool Arith Lia.
From Stdlib Require Import NArith ZArith QArith DecimalString.
Import ListNotations.
Open Scope string_scope.
Open Scope bool_scope.
Open Scope nat_scope.
Open Scope list_scope.

(** ** JavaScript strings *)

Module JsString.

(** Lowercasing of one ASCII character: the letters [A]-[Z] (codes 65 to
    90) move to [a]-[z]; anything else is kept. *)
Definition lowerChar (c : ascii) : ascii :=
  let n := nat_of_ascii c in
  if (65 <=? n) && (n <=? 90) then ascii_of_nat (n + 32) else c.

Fixpoint asciiLower (s : string) : string :=
  match s with
  | EmptyString => EmptyString
  | String c s' => String (lowerChar c) (asciiLower s')
  end.

(** Uppercasing of one ASCII character: the letters [a]-[z] (codes 97 to
    122) move to [A]-[Z]; anything else is kept. *)
Definition upperChar (c : ascii) : ascii :=
  let n := nat_of_ascii c in
  if (97 <=? n) && (n <=? 122) then ascii_of_nat (n - 32) else c.

Fixpoint asciiUpper (s : string) : string :=
  match s with
  | EmptyString => EmptyString
  | String c s' => String (upperChar c) (asciiUpper s')
  end.

(** A string of ASCII characters: every code is below 128. *)
Fixpoint isAscii (s : string) : bool :=
  match s with
  | EmptyString => true
  | String c s' => (nat_of_ascii c <? 128) && isAscii s'
  end.

(** [s.toLowerCase()] and [s.toUpperCase()].  The language defines them by
    the Unicode case mappings, which are not part of the program; what is
    fixed here is what they do to a string of ASCII characters. *)
Class CaseMapping : Type := {
  toLowerCase : string -> string;
  toUpperCase : string -> string;
  toLowerCase_ascii :
    forall s, isAscii s = true -> toLowerCase s = asciiLower s;
  toUpperCase_ascii :
    forall s, isAscii s = true -> toUpperCase s = asciiUpper s
}.

(** The case mapping that leaves every character outside ASCII alone.  It
    is not the language's mapping; it agrees with it on strings of ASCII
    characters, and serves to evaluate the pages on such data.  It is no
    default: where it is meant it is written. *)
Definition asciiCaseMapping : CaseMapping := {|
  toLowerCase := asciiLower;
  toUpperCase := asciiUpper;
  toLowerCase_ascii := fun s _ => eq_refl;
  toUpperCase_ascii := fun s _ => eq_refl
|}.

(** [s.startsWith(t)] *)
Fixpoint startsWith (s t : string) {struct t} : bool :=
  match t, s with
  | EmptyString, _ => true
  | String _ _, EmptyString => false
  | String b t', String a s' => Ascii.eqb a b && startsWith s' t'
  end.

(** [s.includes(t)]: [t] occurs in [s] at some position. *)
Fixpoint includes (s t : string) : bool :=
  startsWith s t ||
  match s with
  | EmptyString => false
  | String _ s' => includes s' t
  end.

(** [a === b] on two strings. *)
Definition strictEq (a b : string) : bool := String.eqb a b.

(** [String(n)] and [n.toString()] for a non-negative integer: its decimal
    digits. *)
Definition toString (n : nat) : string :=
  NilEmpty.string_of_uint (Nat.to_uint n).

(** The first [n] characters of the endless repetition of [filler]; the
    argument [cur] is what is left of the copy being read. *)
Fixpoint repeatTo (filler cur : string) (n : nat) : string :=
  match n with
  | O => EmptyString
  | S n' =>
      match cur with
      | String c cur' => String c (repeatTo filler cur' n')
      | EmptyString =>
          match filler with
          | String c cur' => String c (repeatTo filler cur' n')
          | EmptyString => EmptyString
          end
      end
  end.

(** [s.padStart(targetLength, padString)]: [s] itself when it is already
    long enough or the filler is empty; else the filler, repeated and cut
    to the missing length, in front of [s]. *)
Definition padStart (s : string) (targetLength : nat) (padString : string)
  : string :=
  if targetLength <=? String.length s then s
  else if String.eqb padString EmptyString then s
  else repeatTo padString padString (targetLength - String.length s) ++ s.

(** [s] without its first [n] characters. *)
Fixpoint skip (n : nat) (s : string) : string :=
  match n, s with
  | O, _ => s
  | S _, EmptyString => EmptyString
  | S n', String _ s' => skip n' s'
  end.

(** [s.replace(pattern, replacement)] for a string [pattern]: the first
    occurrence of [pattern] is replaced, the rest of [s] is kept.  The
    replacement is taken as it is (it holds no [$]). *)
Fixpoint replace (s pattern replacement : string) : string :=
  if startsWith s pattern
  then replacement ++ skip (String.length pattern) s
  else match s with
       | EmptyString => EmptyString
       | String c s' => String c (replace s' pattern replacement)
       end.

(** [parts.join(separator)] on an array of strings. *)
Definition join (separator : string) (parts : list string) : string :=
  String.concat separator parts.

End JsString.

(** [t] occurs in [s]: the relation [includes] decides. *)
Definition Substring (t s : string) : Prop :=
  exists pre post, s = (pre ++ t ++ post)%string.

(** Two characters that are the same letter whatever its case: the same
    character, or one of the capitals [A]-[Z] and its small letter. *)
Definition sameLetter (a b : ascii) : bool :=
  let m := nat_of_ascii a in
  let n := nat_of_ascii b in
  (m =? n) ||
  ((65 <=? m) && (m <=? 90) && (n =? m + 32)) ||
  ((65 <=? n) && (n <=? 90) && (m =? n + 32)).

(** Two strings that are equal up to the case of their letters. *)
Fixpoint equalIgnoringCase (s t : string) : bool :=
  match s, t with
  | EmptyString, EmptyString => true
  | String a s', String b t' => sameLetter a b && equalIgnoringCase s' t'
  | _, _ => false
  end.

(** [t] occurs in [s] up to the case of its letters. *)
Definition OccursIgnoringCase (t s : string) : Prop :=
  exists pre mid post,
    s = (pre ++ mid ++ post)%string /\ equalIgnoringCase t mid = true.

(** The numeral of [n] in three decimal digits, hundreds first. *)
Definition threeDigits (n : nat) : string :=
  let digit (d : nat) : ascii := ascii_of_nat (48 + d mod 10) in
  String (digit (n / 100))
    (String (digit (n / 10)) (String (digit n) EmptyString)).

(** [l1] is [l2] with some elements left out, the others in place. *)
Inductive Subsequence {A : Type} : list A -> list A -> Prop :=
| Subsequence_nil : Subsequence [] []
| Subsequence_skip : forall x l1 l2,
    Subsequence l1 l2 -> Subsequence l1 (x :: l2)
| Subsequence_keep : forall x l1 l2,
    Subsequence l1 l2 -> Subsequence (x :: l1) (x :: l2).

(** One tile of a page's statistics row: [{ label, value }]. *)
Record Stat : Type := mkStat { label : string; value : string }.

(** The value shown under a label, if the row has that label. *)
Fixpoint statValue (l : string) (stats : list Stat) : option string :=
  match stats with
  | [] => None
  | s :: rest => if String.eqb (label s) l then Some (value s)
                 else statValue l rest
  end.

(** What [<Badge>] receives from a badge lookup: [{ variant, className }]. *)
Record BadgeStyle : Type :=
  mkBadge { variant : string; className : string }.

(** ** JavaScript objects read by a computed key

    [variants[key]] on an object literal finds the literal's own properties
    and, failing that, what the literal inherits from [Object.prototype].
    An own property of the badge tables is a [BadgeStyle]; an inherited
    member is a function (or, for [__proto__], the prototype object), kept
    here by its name.  A missing property reads as [undefined], here
    [None]. *)

Module JsObject.

(** The property names of [Object.prototype]. *)
Definition objectPrototypeKeys : list string :=
  [ "constructor"; "__defineGetter__"; "__defineSetter__";
    "hasOwnProperty"; "__lookupGetter__"; "__lookupSetter__";
    "isPrototypeOf"; "propertyIsEnumerable"; "toString"; "valueOf";
    "__proto__"; "toLocaleString" ].

Inductive member (A : Type) : Type :=
| Own (a : A)
| Inherited (key : string).
Arguments Own {A} a.
Arguments Inherited {A} key.

Fixpoint getOwn {A : Type} (o : list (string * A)) (key : string)
  : option A :=
  match o with
  | [] => None
  | (k, a) :: rest => if String.eqb k key then Some a else getOwn rest key
  end.

(** [o[key]] *)
Definition get {A : Type} (o : list (string * A)) (key : string)
  : option (member A) :=
  match getOwn o key with
  | Some a => Some (Own a)
  | None =>
      if existsb (String.eqb key) objectPrototypeKeys
      then Some (Inherited key)
      else None
  end.

(** [a || b] where [a] is the result of a property read: objects and
    functions are truthy, [undefined] is falsy. *)
Definition or {A : Type} (a b : option (member A)) : option (member A) :=
  match a with
  | Some m => Some m
  | None => b
  end.

End JsObject.

(** ** src/pages/DigitalIds.tsx *)

Module DigitalIds.
Import JsString.

(** [interface TouristRecord].  The type of [status],
    ['active' | 'inactive' | 'alert'], is erased when the page runs: the
    field holds a string. *)
Record TouristRecord : Type := mkTouristRecord {
  id : string;
  name : string;
  digitalId : string;
  nationality : string;
  itinerary : list string;
  emergencyContact : string;
  status : string;
  lastSeen : string;
  location : string
}.

Definition mockTouristData : list TouristRecord :=
  [ mkTouristRecord "1" "John Smith" "TID-2024-001" "USA"
      ["Red Fort"; "India Gate"; "Qutub Minar"]
      "+1-555-0123" "active" "2 mins ago" "Red Fort Area";
    mkTouristRecord "2" "Marie Dubois" "TID-2024-002" "France"
      ["Lotus Temple"; "Humayun Tomb"]
      "+33-1-4567-8901" "active" "15 mins ago" "Lotus Temple";
    mkTouristRecord "3" "Hiroshi Tanaka" "TID-2024-003" "Japan"
      ["India Gate"; "Red Fort"; "Chandni Chowk"]
      "+81-3-1234-5678" "alert" "1 hour ago" "Chandni Chowk";
    mkTouristRecord "4" "Emma Wilson" "TID-2024-004" "UK"
      ["Qutub Minar"; "Lodhi Gardens"]
      "+44-20-7123-4567" "inactive" "3 hours ago" "Lodhi Gardens" ].

(** The values the status control offers besides ["all"]. *)
Definition statusOptions : list string := ["active"; "inactive"; "alert"].

(** The callback of [mockTouristData.filter(record => ...)]. *)
Definition matches {CM : CaseMapping}
    (searchTerm statusFilter nationalityFilter : string)
    (record : TouristRecord) : bool :=
  let matchesSearch :=
    includes (toLowerCase (name record)) (toLowerCase searchTerm) ||
    includes (toLowerCase (digitalId record)) (toLowerCase searchTerm) in
  let matchesStatus :=
    strictEq statusFilter "all" || strictEq (status record) statusFilter in
  let matchesNationality :=
    strictEq nationalityFilter "all" ||
    strictEq (nationality record) nationalityFilter in
  matchesSearch && matchesStatus && matchesNationality.

Definition filteredData {CM : CaseMapping} (data : list TouristRecord)
    (searchTerm statusFilter nationalityFilter : string)
  : list TouristRecord :=
  filter (matches searchTerm statusFilter nationalityFilter) data.

Definition getStatusBadge (status : string)
  : option (JsObject.member BadgeStyle) :=
  let variants :=
    [ ("active", mkBadge "default" "bg-success text-success-foreground");
      ("inactive", mkBadge "secondary" "");
      ("alert", mkBadge "destructive" "") ] in
  JsObject.or (JsObject.get variants status)
              (JsObject.get variants "active").

Definition stats (data : list TouristRecord) : list Stat :=
  [ mkStat "Total Records" (toString (List.length data));
    mkStat "Active Tourists"
      (toString (List.length (filter (fun r => strictEq (status r) "active")
                                data)));
    mkStat "Alert Status"
      (toString (List.length (filter (fun r => strictEq (status r) "alert")
                                data)));
    mkStat "Nationalities"
      (toString (List.length (nodup string_dec (map nationality data)))) ].

(** What the page shows: the tiles and the table rows. *)
Record View : Type := mkView {
  statTiles : list Stat;
  tableRows : list TouristRecord
}.

(** The component, one render: the three state cells in, the view out.
    The tiles are [stats] of the whole collection, the rows are
    [filteredData]. *)
Definition render {CM : CaseMapping} (data : list TouristRecord)
    (searchTerm statusFilter nationalityFilter : string) : View :=
  let filteredData :=
    filteredData data searchTerm statusFilter nationalityFilter in
  let stats := stats data in
  mkView stats filteredData.

(** The itinerary cell of a row: the first two waypoints joined by a
    comma, then the child [itinerary.length > 2 && "..."], which is the
    text ["..."] or [false]; React shows nothing for [false], here
    [None]. *)
Definition itineraryCell (record : TouristRecord) : string * option string :=
  (join ", " (firstn 2 (itinerary record)),
   if 2 <? List.length (itinerary record) then Some "..." else None).

(** The text of the status badge of a row. *)
Definition statusLabel {CM : CaseMapping} (record : TouristRecord) : string :=
  toUpperCase (status record).

End DigitalIds.

(** ** src/pages/Alerts.tsx *)

Module Alerts.
Import JsString.

(** [interface Alert]; the enumerated fields hold strings, the
    coordinates are the decimal literals of the source. *)
Record Alert : Type := mkAlert {
  id : string;
  touristId : string;
  touristName : string;
  alertType : string;
  timestamp : string;
  status : string;
  location : Q * Q;
  description : string;
  priority : string
}.

Definition mockAlerts : list Alert :=
  [ mkAlert "1" "TID-2024-003" "Hiroshi Tanaka" "geo-fence"
      "2024-01-15 14:30:00" "active" (28.6562%Q, 77.2410%Q)
      "Tourist entered restricted area near Red Fort" "high";
    mkAlert "2" "TID-2024-001" "John Smith" "panic"
      "2024-01-15 13:15:00" "investigating" (28.6139%Q, 77.2090%Q)
      "Emergency button pressed by tourist" "high";
    mkAlert "3" "TID-2024-002" "Marie Dubois" "anomaly"
      "2024-01-15 12:45:00" "resolved" (28.5562%Q, 77.1000%Q)
      "Unusual movement pattern detected" "medium" ].

Definition Alert_eq_dec : forall a b : Alert, {a = b} + {a <> b}.
Proof.
  repeat decide equality.
Defined.

Definition statusOptions : list string :=
  ["active"; "investigating"; "resolved"].
Definition priorityOptions : list string := ["high"; "medium"; "low"].

(** The callback of [mockAlerts.filter(alert => ...)]. *)
Definition matches (statusFilter priorityFilter : string) (alert : Alert)
  : bool :=
  let matchesStatus :=
    strictEq statusFilter "all" || strictEq (status alert) statusFilter in
  let matchesPriority :=
    strictEq priorityFilter "all" ||
    strictEq (priority alert) priorityFilter in
  matchesStatus && matchesPriority.

Definition filteredAlerts (alerts : list Alert)
    (statusFilter priorityFilter : string) : list Alert :=
  filter (matches statusFilter priorityFilter) alerts.

Definition getStatusBadge (status : string)
  : option (JsObject.member BadgeStyle) :=
  let variants :=
    [ ("active", mkBadge "destructive" "");
      ("investigating",
       mkBadge "default" "bg-warning text-warning-foreground");
      ("resolved", mkBadge "default" "bg-success text-success-foreground")
    ] in
  JsObject.or (JsObject.get variants status)
              (JsObject.get variants "active").

Definition getPriorityBadge (priority : string)
  : option (JsObject.member BadgeStyle) :=
  let variants :=
    [ ("high", mkBadge "destructive" "");
      ("medium", mkBadge "default" "bg-warning text-warning-foreground");
      ("low", mkBadge "secondary" "") ] in
  JsObject.or (JsObject.get variants priority)
              (JsObject.get variants "medium").

(** [stats]: every tile counts in [filteredAlerts]. *)
Definition stats (filteredAlerts : list Alert) : list Stat :=
  [ mkStat "Active Alerts"
      (toString (List.length (filter (fun a => strictEq (status a) "active")
                                filteredAlerts)));
    mkStat "High Priority"
      (toString (List.length (filter (fun a => strictEq (priority a) "high")
                                filteredAlerts)));
    mkStat "Under Investigation"
      (toString
         (List.length (filter (fun a => strictEq (status a) "investigating")
                         filteredAlerts)));
    mkStat "Resolved Today"
      (toString (List.length (filter (fun a => strictEq (status a) "resolved")
                                filteredAlerts))) ].

(** What the page shows: the number in the header badge ("n Active
    Alerts"), the tiles and the table rows. *)
Record View : Type := mkView {
  headerActiveAlerts : nat;
  statTiles : list Stat;
  tableRows : list Alert
}.

Definition render (alerts : list Alert)
    (statusFilter priorityFilter : string) : View :=
  let filteredAlerts := filteredAlerts alerts statusFilter priorityFilter in
  let stats := stats filteredAlerts in
  mkView
    (List.length (filter (fun a => strictEq (status a) "active")
                         filteredAlerts))
    stats filteredAlerts.

(** [interface LocationData]; in a module of its own because it shares
    field names with [Alert]. *)
Module Tracking.
Record LocationData : Type := mkLocationData {
  id : string;
  touristId : string;
  location : Q * Q;
  timestamp : string;
  accuracy : nat
}.
End Tracking.

Definition mockLocationData : list Tracking.LocationData :=
  [ Tracking.mkLocationData "1" "TID-2024-003" (28.6562%Q, 77.2410%Q)
      "2024-01-15 14:35:00" 5;
    Tracking.mkLocationData "2" "TID-2024-001" (28.6139%Q, 77.2090%Q)
      "2024-01-15 14:30:00" 8;
    Tracking.mkLocationData "3" "TID-2024-002" (28.5562%Q, 77.1000%Q)
      "2024-01-15 14:25:00" 3 ].

(** What the map effect draws for one location: a circle marker and the
    values its popup interpolates into fixed markup. *)
Record Marker : Type := mkMarker {
  center : Q * Q;
  radius : nat;
  fillColor : string;
  popupName : string;
  popupId : string;
  popupLastUpdate : string;
  popupAccuracy : string
}.

(** [mockAlerts.find(a => a.touristId === location.touristId)] *)
Definition alertOf (alerts : list Alert) (location : Tracking.LocationData)
  : option Alert :=
  find (fun a => strictEq (touristId a) (Tracking.touristId location)) alerts.

(** [alert?.priority === p]: false when no alert was found. *)
Definition priorityIs (alert : option Alert) (p : string) : bool :=
  match alert with
  | Some a => strictEq (priority a) p
  | None => false
  end.

(** The body of [mockLocationData.forEach(location => ...)]. *)
Definition markerOf (alerts : list Alert) (location : Tracking.LocationData)
  : Marker :=
  let alert := alertOf alerts location in
  let color :=
    if priorityIs alert "high" then "#ef4444"
    else if priorityIs alert "medium" then "#f59e0b"
    else "#10b981" in
  let tourist := alertOf alerts location in
  mkMarker (Tracking.location location) 8 color
    (match tourist with
     | Some t => if strictEq (touristName t) "" then "Unknown Tourist"
                 else touristName t
     | None => "Unknown Tourist"
     end)
    (Tracking.touristId location)
    (Tracking.timestamp location)
    (toString (Tracking.accuracy location)).

(** The markers the effect adds to the map, in the order it adds them. *)
Definition markers (alerts : list Alert)
    (locations : list Tracking.LocationData) : list Marker :=
  map (markerOf alerts) locations.

Definition getAlertIcon (type : string) : string :=
  if strictEq type "panic" then "ðŸš¨"
  else if strictEq type "emergency" then "ðŸš¨"
  else if strictEq type "geo-fence" then "ðŸš«"
  else if strictEq type "anomaly" then "âš ï¸"
  else "â“".

Definition alertTypes : list string :=
  ["geo-fence"; "panic"; "anomaly"; "emergency"].

(** [alert.alertType.replace('-', ' ').toUpperCase()], the heading of an
    alert in the table and in the details card. *)
Definition alertTypeLabel {CM : CaseMapping} (alert : Alert) : string :=
  toUpperCase (replace (alertType alert) "-" " ").

(** The state cells of the component. *)
Record State : Type := mkState {
  statusFilter : string;
  priorityFilter : string;
  selectedAlert : option Alert
}.

Definition initialState : State := mkState "all" "all" None.

(** What the user can do on the page: choose in either select, click the
    [i]-th row of the table (counted from 0), close the details card. *)
Inductive Event : Type :=
| ChooseStatus (value : string)
| ChoosePriority (value : string)
| ClickRow (i : nat)
| CloseDetails.

(** The handlers: [setStatusFilter], [setPriorityFilter],
    [setSelectedAlert(alert)] for the alert of the clicked row of
    [filteredAlerts.map], [setSelectedAlert(null)].  A row that is not on
    the page cannot be clicked. *)
Definition handle (alerts : list Alert) (st : State) (e : Event) : State :=
  match e with
  | ChooseStatus v => mkState v (priorityFilter st) (selectedAlert st)
  | ChoosePriority v => mkState (statusFilter st) v (selectedAlert st)
  | ClickRow i =>
      match nth_error
              (filteredAlerts alerts (statusFilter st) (priorityFilter st)) i
      with
      | Some alert =>
          mkState (statusFilter st) (priorityFilter st) (Some alert)
      | None => st
      end
  | CloseDetails => mkState (statusFilter st) (priorityFilter st) None
  end.

(** The state after a sequence of events. *)
Definition run (alerts : list Alert) (st : State) (events : list Event)
  : State :=
  fold_left (handle alerts) events st.

End Alerts.

(** ** The E-FIR case page *)

Module EFir.
Import JsString.

(** [interface EFIRCase] *)
Record EFIRCase : Type := mkEFIRCase {
  id : string;
  firNumber : string;
  touristId : string;
  touristName : string;
  caseType : string;
  lastSeen : string;
  location : string;
  description : string;
  status : string;
  createdAt : string;
  assignedOfficer : string;
  priority : string
}.

(** [interface NewEFIRForm]; in a module of its own because it shares
    field names with [EFIRCase]. *)
Module Form.
Record NewEFIRForm : Type := mkNewEFIRForm {
  touristId : string;
  lastSeen : string;
  location : string;
  description : string;
  caseType : string;
  reporterName : string;
  reporterContact : string
}.
Definition empty : NewEFIRForm := mkNewEFIRForm "" "" "" "" "" "" "".
End Form.

(** The argument of [toast({ title, description })]. *)
Module Toast.
Record Toast : Type := mkToast { title : string; description : string }.
End Toast.

Definition mockEFIRCases : list EFIRCase :=
  [ mkEFIRCase "1" "FIR-2024-001" "TID-2024-005" "Sarah Johnson" "missing"
      "2024-01-15 10:30:00" "Chandni Chowk Market"
      "Tourist was separated from group in crowded market area. Last seen wearing blue jacket and carrying red backpack."
      "investigating" "2024-01-15 11:00:00" "Insp. Rajesh Kumar" "high";
    mkEFIRCase "2" "FIR-2024-002" "TID-2024-006" "Michael Brown" "theft"
      "2024-01-14 16:15:00" "India Gate"
      "Tourist reported theft of passport and wallet while taking photographs near India Gate."
      "resolved" "2024-01-14 17:00:00" "Const. Priya Sharma" "medium" ].

Definition statusOptions : list string :=
  ["pending"; "investigating"; "resolved"; "closed"].

(** The state cells of the component. *)
Record State : Type := mkState {
  isFormOpen : bool;
  isConfirmationOpen : bool;
  generatedFIRNumber : string;
  statusFilter : string;
  formData : Form.NewEFIRForm
}.

Definition initialState : State :=
  mkState false false "" "all" Form.empty.

(** The callback of [mockEFIRCases.filter(case_ => ...)]. *)
Definition matches (statusFilter : string) (case_ : EFIRCase) : bool :=
  strictEq statusFilter "all" || strictEq (status case_) statusFilter.

Definition filteredCases (cases : list EFIRCase) (statusFilter : string)
  : list EFIRCase :=
  filter (matches statusFilter) cases.

(** [handleInputChange(field, value)], one setter per field of the form. *)
Definition setFormData (f : Form.NewEFIRForm -> Form.NewEFIRForm)
    (st : State) : State :=
  mkState (isFormOpen st) (isConfirmationOpen st) (generatedFIRNumber st)
          (statusFilter st) (f (formData st)).

(** [handleSubmit]: the reference number is computed before the awaited
    timer; the timer's promise always resolves, so the state updates and
    the toast of the [try] block follow.  The case collection is read, not
    changed. *)
Definition handleSubmit (cases : list EFIRCase) (st : State)
  : State * Toast.Toast :=
  let firNumber :=
    ("FIR-2024-" ++
     padStart (toString (List.length cases + 1)) 3 "0")%string in
  (mkState false true firNumber (statusFilter st) Form.empty,
   Toast.mkToast "E-FIR Generated Successfully"
                 ("FIR Number: " ++ firNumber)).

Definition getStatusBadge (status : string)
  : option (JsObject.member BadgeStyle) :=
  let variants :=
    [ ("pending", mkBadge "outline" "text-warning bg-warning/10");
      ("investigating", mkBadge "default" "bg-info text-info-foreground");
      ("resolved", mkBadge "default" "bg-success text-success-foreground");
      ("closed", mkBadge "secondary" "") ] in
  JsObject.or (JsObject.get variants status)
              (JsObject.get variants "pending").

Definition getPriorityBadge (priority : string)
  : option (JsObject.member BadgeStyle) :=
  let variants :=
    [ ("high", mkBadge "destructive" "");
      ("medium", mkBadge "default" "bg-warning text-warning-foreground");
      ("low", mkBadge "secondary" "") ] in
  JsObject.or (JsObject.get variants priority)
              (JsObject.get variants "medium").

Definition stats (cases : list EFIRCase) : list Stat :=
  [ mkStat "Total Cases" (toString (List.length cases));
    mkStat "Active Cases"
      (toString
         (List.length
            (filter (fun c => strictEq (status c) "investigating" ||
                              strictEq (status c) "pending") cases)));
    mkStat "Resolved Today"
      (toString (List.length (filter (fun c => strictEq (status c) "resolved")
                                cases)));
    mkStat "High Priority"
      (toString (List.length (filter (fun c => strictEq (priority c) "high")
                                cases))) ].

Record View : Type := mkView {
  statTiles : list Stat;
  tableRows : list EFIRCase
}.

(** One render: the rows are [filteredCases], the tiles are [stats] of
    the whole collection. *)
Definition render (cases : list EFIRCase) (st : State) : View :=
  let filteredCases := filteredCases cases (statusFilter st) in
  let stats := stats cases in
  mkView stats filteredCases.

(** [keyof NewEFIRForm], the first argument of [handleInputChange]. *)
Module Key.
Inductive keyof : Type :=
| touristId | lastSeen | location | description | caseType
| reporterName | reporterContact.
End Key.

(** [form[field]] *)
Definition getField (form : Form.NewEFIRForm) (field : Key.keyof) : string :=
  match field with
  | Key.touristId => Form.touristId form
  | Key.lastSeen => Form.lastSeen form
  | Key.location => Form.location form
  | Key.description => Form.description form
  | Key.caseType => Form.caseType form
  | Key.reporterName => Form.reporterName form
  | Key.reporterContact => Form.reporterContact form
  end.

(** [{ ...prev, [field]: value }] *)
Definition setField (prev : Form.NewEFIRForm) (field : Key.keyof)
    (value : string) : Form.NewEFIRForm :=
  Form.mkNewEFIRForm
    (match field with Key.touristId => value | _ => Form.touristId prev end)
    (match field with Key.lastSeen => value | _ => Form.lastSeen prev end)
    (match field with Key.location => value | _ => Form.location prev end)
    (match field with
     | Key.description => value | _ => Form.description prev end)
    (match field with Key.caseType => value | _ => Form.caseType prev end)
    (match field with
     | Key.reporterName => value | _ => Form.reporterName prev end)
    (match field with
     | Key.reporterContact => value | _ => Form.reporterContact prev end).

Definition handleInputChange (field : Key.keyof) (value : string)
    (st : State) : State :=
  setFormData (fun prev => setField prev field value) st.

Definition getCaseTypeIcon (type : string) : string :=
  if strictEq type "missing" then "👤"
  else if strictEq type "theft" then "🚨"
  else if strictEq type "emergency" then "🆘"
  else if strictEq type "accident" then "🚑"
  else "📋".

Definition caseTypes : list string :=
  ["missing"; "theft"; "emergency"; "accident"].

(** What the user can do on the page: press "Generate New E-FIR", type
    into a field of the form, submit the form, press "Cancel", press
    "Acknowledged", choose in the status select; and what the two dialogs
    report through [onOpenChange]. *)
Inductive Event : Type :=
| ClickGenerate
| FormOpenChange (open : bool)
| Input (field : Key.keyof) (value : string)
| Submit
| ClickCancel
| ConfirmationOpenChange (open : bool)
| ClickAcknowledged
| ChooseStatus (value : string).

Definition setIsFormOpen (open : bool) (st : State) : State :=
  mkState open (isConfirmationOpen st) (generatedFIRNumber st)
          (statusFilter st) (formData st).

Definition setIsConfirmationOpen (open : bool) (st : State) : State :=
  mkState (isFormOpen st) open (generatedFIRNumber st)
          (statusFilter st) (formData st).

Definition setStatusFilter (value : string) (st : State) : State :=
  mkState (isFormOpen st) (isConfirmationOpen st) (generatedFIRNumber st)
          value (formData st).

(** The handler of each event: the next state and the toasts it shows.
    [Submit] is a submission taking effect, that is the moment the timer
    [handleSubmit] awaits fires: until then a submitted form has changed
    no state cell and shown no toast. *)
Definition handle (cases : list EFIRCase) (st : State) (e : Event)
  : State * list Toast.Toast :=
  match e with
  | ClickGenerate => (setIsFormOpen true st, [])
  | FormOpenChange open => (setIsFormOpen open st, [])
  | Input field value => (handleInputChange field value st, [])
  | Submit => let (st', toast) := handleSubmit cases st in (st', [toast])
  | ClickCancel => (setIsFormOpen false st, [])
  | ConfirmationOpenChange open => (setIsConfirmationOpen open st, [])
  | ClickAcknowledged => (setIsConfirmationOpen false st, [])
  | ChooseStatus value => (setStatusFilter value st, [])
  end.

(** The state after a sequence of events, and the toasts shown on the
    way, oldest first. *)
Fixpoint run (cases : list EFIRCase) (st : State) (events : list Event)
  : State * list Toast.Toast :=
  match events with
  | [] => (st, [])
  | e :: rest =>
      let (st', shown) := handle cases st e in
      let (final, later) := run cases st' rest in
      (final, shown ++ later)
  end.

End EFir.

(** ** The sidebar *)

Module AppSidebar.
Import JsString.

(** An entry of [menuItems]; the icon is a component, kept by its name. *)
Record MenuItem : Type := mkMenuItem {
  title : string;
  url : string;
  icon : string
}.

Definition menuItems : list MenuItem :=
  [ mkMenuItem "Tourist Clusters" "/" "Map";
    mkMenuItem "Digital ID Records" "/digital-ids" "Database";
    mkMenuItem "Alerts & Locations" "/alerts" "AlertTriangle";
    mkMenuItem "E-FIR Cases" "/efir" "FileText" ].

(** [isActive(path)], with [currentPath] of the enclosing component. *)
Definition isActive (currentPath path : string) : bool :=
  if strictEq path "/" && strictEq currentPath "/" then true
  else if negb (strictEq path "/") && startsWith currentPath path then true
  else false.

Definition getNavClasses (currentPath path : string) : string :=
  let baseClasses := "flex items-center w-full transition-colors" in
  if isActive currentPath path
  then baseClasses ++ " bg-primary text-primary-foreground hover:bg-primary-dark"
  else baseClasses ++
       " text-muted-foreground hover:bg-accent/10 hover:text-accent-foreground".

(** One [<NavLink>] of the menu: its target, its classes, and its label,
    which is left out when the sidebar is collapsed. *)
Record NavLink : Type := mkNavLink {
  to : string;
  navClassName : string;
  navLabel : option string
}.

(** The component: the width class of the sidebar and its links, from the
    sidebar state and the current path. *)
Definition render (state currentPath : string) : string * list NavLink :=
  let collapsed := strictEq state "collapsed" in
  (if collapsed then "w-14" else "w-64",
   map (fun item =>
          mkNavLink (url item) (getNavClasses currentPath (url item))
                    (if negb collapsed then Some (title item) else None))
       menuItems).

End AppSidebar.

(** ** The filters on untyped objects

    The interfaces above are compile-time only.  At run time a record is an
    object whose properties hold any value, or are missing.  This module
    runs the same filter callbacks on such objects: a property the callback
    reads holds [undefined] (also when it is missing), [null] or a string;
    a method call on [undefined] or [null] throws a [TypeError], and an
    exception in the callback ends [Array.prototype.filter]. *)

Module Runtime.

Inductive value : Type :=
| Undefined
| Null
| Str (s : string).

Inductive completion (A : Type) : Type :=
| Normal (a : A)
| Throw (error : string).
Arguments Normal {A} a.
Arguments Throw {A} error.

Definition bind {A B : Type} (c : completion A) (k : A -> completion B)
  : completion B :=
  match c with
  | Normal a => k a
  | Throw e => Throw e
  end.

Notation "x <- c ;; k" := (bind c (fun x => k))
  (at level 61, c at next level, right associativity).

(** [v === s] for a string [s]: no conversion, never throws. *)
Definition strictEq (v : value) (s : string) : bool :=
  match v with
  | Str t => String.eqb t s
  | _ => false
  end.

(** [v.toLowerCase()] *)
Definition toLowerCase {CM : JsString.CaseMapping} (v : value)
  : completion string :=
  match v with
  | Str s => Normal (JsString.toLowerCase s)
  | _ => Throw "TypeError"
  end.

(** [Array.prototype.filter] with a callback that may throw. *)
Fixpoint filter {A : Type} (f : A -> completion bool) (l : list A)
  : completion (list A) :=
  match l with
  | [] => Normal []
  | x :: rest =>
      keep <- f x ;;
      kept <- filter f rest ;;
      Normal (if keep then x :: kept else kept)
  end.

Module OnDigitalIds.

(** The properties of a tourist object the filter reads. *)
Record TouristObject : Type := mkTouristObject {
  name : value;
  digitalId : value;
  nationality : value;
  status : value
}.

(** [||] evaluates its right operand only when the left one is false:
    [record.digitalId] is lowercased only for a name that does not
    match. *)
Definition matches {CM : JsString.CaseMapping}
    (searchTerm statusFilter nationalityFilter : string)
    (record : TouristObject) : completion bool :=
  lowName <- toLowerCase (name record) ;;
  matchesSearch <-
    (if JsString.includes lowName (JsString.toLowerCase searchTerm)
     then Normal true
     else lowId <- toLowerCase (digitalId record) ;;
          Normal (JsString.includes lowId
                    (JsString.toLowerCase searchTerm))) ;;
  let matchesStatus :=
    JsString.strictEq statusFilter "all" ||
    strictEq (status record) statusFilter in
  let matchesNationality :=
    JsString.strictEq nationalityFilter "all" ||
    strictEq (nationality record) nationalityFilter in
  Normal (matchesSearch && matchesStatus && matchesNationality).

Definition filteredData {CM : JsString.CaseMapping} (data : list TouristObject)
    (searchTerm statusFilter nationalityFilter : string)
  : completion (list TouristObject) :=
  filter (matches searchTerm statusFilter nationalityFilter) data.

(** A record of the interface, as the object it is at run time. *)
Definition ofRecord (r : DigitalIds.TouristRecord) : TouristObject :=
  mkTouristObject (Str (DigitalIds.name r)) (Str (DigitalIds.digitalId r))
                  (Str (DigitalIds.nationality r))
                  (Str (DigitalIds.status r)).

End OnDigitalIds.

Module OnAlerts.

(** The properties of an alert object the filter reads. *)
Record AlertObject : Type := mkAlertObject {
  status : value;
  priority : value
}.

Definition matches (statusFilter priorityFilter : string)
    (alert : AlertObject) : completion bool :=
  let matchesStatus :=
    JsString.strictEq statusFilter "all" ||
    strictEq (status alert) statusFilter in
  let matchesPriority :=
    JsString.strictEq priorityFilter "all" ||
    strictEq (priority alert) priorityFilter in
  Normal (matchesStatus && matchesPriority).

Definition filteredAlerts (alerts : list AlertObject)
    (statusFilter priorityFilter : string)
  : completion (list AlertObject) :=
  filter (matches statusFilter priorityFilter) alerts.

Definition ofRecord (a : Alerts.Alert) : AlertObject :=
  mkAlertObject (Str (Alerts.status a)) (Str (Alerts.priority a)).

End OnAlerts.

End Runtime.

(** * Properties *)

(** ** Strings *)

Section StringFacts.
Import JsString.

Lemma strictEq_eq (a b : string) : strictEq a b = true <-> a = b.
Proof. unfold strictEq. apply String.eqb_eq. Qed.

Lemma startsWith_prefix (t s : string) :
  startsWith s t = true <-> exists post, s = (t ++ post)%string.
Proof.
  revert s. induction t as [|b t IH]; intros s; simpl.
  - split; [intros _; exists s; reflexivity | reflexivity].
  - destruct s as [|a s].
    + split; [discriminate | intros [post H]; discriminate].
    + rewrite andb_true_iff, Ascii.eqb_eq, IH. split.
      * intros [-> [post ->]]. exists post. reflexivity.
      * intros [post H]. injection H as -> ->. split; eauto.
Qed.

Lemma includes_Substring (s t : string) :
  includes s t = true <-> Substring t s.
Proof.
  unfold Substring. induction s as [|a s IH]; simpl.
  - rewrite orb_false_r, startsWith_prefix. split.
    + intros [post H]. exists EmptyString, post. exact H.
    + intros [[|c pre] [post H]]; [eauto | discriminate].
  - rewrite orb_true_iff, startsWith_prefix, IH. split.
    + intros [[post H] | [pre [post H]]].
      * exists EmptyString, post. exact H.
      * exists (String a pre), post. simpl. rewrite H. reflexivity.
    + intros [[|c pre] [post H]].
      * left. exists post. exact H.
      * right. simpl in H. injection H as _ H. eauto.
Qed.

Lemma includes_empty (s : string) : includes s EmptyString = true.
Proof. destruct s; reflexivity. Qed.

Lemma Substring_empty (s : string) : Substring EmptyString s.
Proof. exists EmptyString, s. reflexivity. Qed.

Lemma every_ascii_listed (c : ascii) :
  In c (map ascii_of_nat (seq 0 256)).
Proof.
  rewrite <- (ascii_nat_embedding c). apply in_map. apply in_seq.
  pose proof (nat_ascii_bounded c). lia.
Qed.

(** Two characters have the same lowercase form exactly when they are the
    same letter. *)
Lemma lowerChar_sameLetter (a b : ascii) :
  Ascii.eqb (lowerChar a) (lowerChar b) = sameLetter a b.
Proof.
  assert (All : forallb
                  (fun x =>
                     forallb
                       (fun y => Bool.eqb (Ascii.eqb (lowerChar x)
                                                     (lowerChar y))
                                          (sameLetter x y))
                       (map ascii_of_nat (seq 0 256)))
                  (map ascii_of_nat (seq 0 256)) = true)
    by (vm_compute; reflexivity).
  rewrite forallb_forall in All.
  specialize (All a (every_ascii_listed a)).
  rewrite forallb_forall in All.
  specialize (All b (every_ascii_listed b)).
  apply Bool.eqb_prop in All. exact All.
Qed.

Lemma asciiLower_eq_iff (s t : string) :
  equalIgnoringCase s t = true <-> asciiLower s = asciiLower t.
Proof.
  revert t. induction s as [|a s IH]; intros [|b t]; simpl;
    try (split; [reflexivity || discriminate | reflexivity || discriminate]).
  rewrite andb_true_iff, <- lowerChar_sameLetter, Ascii.eqb_eq, IH. split.
  - intros [-> ->]. reflexivity.
  - intros E. injection E as E1 E2. auto.
Qed.

Lemma asciiLower_app (s t : string) :
  asciiLower (s ++ t) = (asciiLower s ++ asciiLower t)%string.
Proof.
  induction s as [|a s IH]; simpl; [reflexivity|]. rewrite IH. reflexivity.
Qed.

Lemma asciiLower_split (s a b : string) :
  asciiLower s = (a ++ b)%string ->
  exists s1 s2, s = (s1 ++ s2)%string /\
                asciiLower s1 = a /\ asciiLower s2 = b.
Proof.
  revert s. induction a as [|c a IH]; intros s E; simpl in E.
  - exists EmptyString, s. auto.
  - destruct s as [|d s]; simpl in E; [discriminate|].
    injection E as Ec E. destruct (IH s E) as (s1 & s2 & -> & <- & <-).
    exists (String d s1), s2. simpl. rewrite Ec. auto.
Qed.

(** On lowercased ASCII strings, occurring is occurring up to the case of
    the letters. *)
Lemma Substring_asciiLower (t s : string) :
  Substring (asciiLower t) (asciiLower s) <-> OccursIgnoringCase t s.
Proof.
  unfold Substring, OccursIgnoringCase. split.
  - intros (pre & post & E).
    apply asciiLower_split in E. destruct E as (s1 & s2 & -> & <- & E).
    apply asciiLower_split in E. destruct E as (s3 & s4 & -> & E & <-).
    exists s1, s3, s4. split; [reflexivity|].
    apply asciiLower_eq_iff. symmetry. exact E.
  - intros (pre & mid & post & -> & E). apply asciiLower_eq_iff in E.
    exists (asciiLower pre), (asciiLower post).
    rewrite !asciiLower_app, E. reflexivity.
Qed.

Lemma toLowerCase_empty {CM : CaseMapping} : toLowerCase "" = "".
Proof. apply (toLowerCase_ascii ""). reflexivity. Qed.

End StringFacts.

(** ** Lists *)

Section ListFacts.
Context {A : Type}.

Lemma filter_idempotent (f : A -> bool) (l : list A) :
  filter f (filter f l) = filter f l.
Proof.
  induction l as [|x l IH]; simpl; [reflexivity|].
  destruct (f x) eqn:E; simpl; [rewrite E, IH|]; auto.
Qed.

Lemma filter_everything (f : A -> bool) (l : list A) :
  (forall x, In x l -> f x = true) -> filter f l = l.
Proof.
  induction l as [|x l IH]; intros H; simpl; [reflexivity|].
  rewrite (H x (or_introl eq_refl)), IH; auto.
  intros y Hy. apply H. right. exact Hy.
Qed.

Lemma Subsequence_filter (f : A -> bool) (l : list A) :
  Subsequence (filter f l) l.
Proof.
  induction l as [|x l IH]; simpl; [constructor|].
  destruct (f x); constructor; exact IH.
Qed.

Lemma Subsequence_In (l1 l2 : list A) :
  Subsequence l1 l2 -> forall x, In x l1 -> In x l2.
Proof.
  induction 1 as [|y l1 l2 _ IH|y l1 l2 _ IH]; intros x Hx; simpl in *.
  - exact Hx.
  - right. auto.
  - destruct Hx; [left|right]; auto.
Qed.

Lemma Subsequence_count_occ (dec : forall a b : A, {a = b} + {a <> b})
    (l1 l2 : list A) :
  Subsequence l1 l2 -> forall x, count_occ dec l1 x <= count_occ dec l2 x.
Proof.
  induction 1 as [|y l1 l2 _ IH|y l1 l2 _ IH]; intros x; simpl.
  - lia.
  - specialize (IH x). destruct (dec y x); lia.
  - specialize (IH x). destruct (dec y x); lia.
Qed.

(** A subsequence sits in the list at increasing positions. *)
Lemma Subsequence_positions (l1 l2 : list A) :
  Subsequence l1 l2 ->
  exists pos : nat -> nat,
    (forall i j, i < j -> j < List.length l1 -> pos i < pos j) /\
    (forall i, i < List.length l1 -> nth_error l1 i = nth_error l2 (pos i)).
Proof.
  induction 1 as [|y l1 l2 _ [pos [Hmono Hnth]]|y l1 l2 _ [pos [Hmono Hnth]]].
  - exists (fun i => i). simpl. split; intros; lia.
  - exists (fun i => S (pos i)). split.
    + intros i j Hij Hj. specialize (Hmono i j Hij Hj). lia.
    + intros i Hi. simpl. auto.
  - exists (fun i => match i with O => O | S i' => S (pos i') end). split.
    + intros [|i] [|j] Hij Hj; simpl in *; try lia.
      assert (pos i < pos j) by (apply Hmono; lia). lia.
    + intros [|i] Hi; simpl in *; [reflexivity|]. apply Hnth. lia.
Qed.

End ListFacts.

(** ** The filter predicates, one dimension at a time *)

Section Dimensions.
Import JsString.
Context {CM : JsString.CaseMapping}.

(** A dimension [filter === "all" || field === filter] lets a record pass
    exactly when a selection other than ["all"] is the field's value. *)
Lemma dimension_passes (selected field : string) :
  strictEq selected "all" || strictEq field selected = true <->
  (selected <> "all" -> field = selected).
Proof.
  rewrite orb_true_iff, !strictEq_eq.
  destruct (string_dec selected "all") as [E|E]; tauto.
Qed.

Lemma search_passes (searchTerm name_ id_ : string) :
  includes (toLowerCase name_) (toLowerCase searchTerm) ||
  includes (toLowerCase id_) (toLowerCase searchTerm) = true <->
  Substring (toLowerCase searchTerm) (toLowerCase name_) \/
  Substring (toLowerCase searchTerm) (toLowerCase id_).
Proof. rewrite orb_true_iff, !includes_Substring. reflexivity. Qed.

Lemma DigitalIds_matches_iff (searchTerm statusFilter nationalityFilter : string)
    (r : DigitalIds.TouristRecord) :
  DigitalIds.matches searchTerm statusFilter nationalityFilter r = true <->
  (Substring (toLowerCase searchTerm) (toLowerCase (DigitalIds.name r)) \/
   Substring (toLowerCase searchTerm)
             (toLowerCase (DigitalIds.digitalId r))) /\
  (statusFilter <> "all" -> DigitalIds.status r = statusFilter) /\
  (nationalityFilter <> "all" ->
   DigitalIds.nationality r = nationalityFilter).
Proof.
  unfold DigitalIds.matches.
  rewrite !andb_true_iff, search_passes, !dimension_passes. tauto.
Qed.

Lemma Alerts_matches_iff (statusFilter priorityFilter : string)
    (a : Alerts.Alert) :
  Alerts.matches statusFilter priorityFilter a = true <->
  (statusFilter <> "all" -> Alerts.status a = statusFilter) /\
  (priorityFilter <> "all" -> Alerts.priority a = priorityFilter).
Proof.
  unfold Alerts.matches. rewrite andb_true_iff, !dimension_passes. tauto.
Qed.

Lemma EFir_matches_iff (statusFilter : string) (c : EFir.EFIRCase) :
  EFir.matches statusFilter c = true <->
  (statusFilter <> "all" -> EFir.status c = statusFilter).
Proof. unfold EFir.matches. apply dimension_passes. Qed.

Lemma DigitalIds_matches_no_filter (r : DigitalIds.TouristRecord) :
  DigitalIds.matches "" "all" "all" r = true.
Proof.
  unfold DigitalIds.matches. rewrite toLowerCase_empty.
  rewrite !includes_empty. reflexivity.
Qed.

(** On ASCII data and an ASCII search term every case mapping gives what
    the ASCII one gives. *)
Lemma DigitalIds_matches_on_ascii
    (searchTerm statusFilter nationalityFilter : string)
    (r : DigitalIds.TouristRecord) :
  isAscii searchTerm = true ->
  isAscii (DigitalIds.name r) = true ->
  isAscii (DigitalIds.digitalId r) = true ->
  DigitalIds.matches searchTerm statusFilter nationalityFilter r =
  DigitalIds.matches (CM := asciiCaseMapping)
                     searchTerm statusFilter nationalityFilter r.
Proof.
  intros Hq Hn Hd. unfold DigitalIds.matches.
  rewrite !toLowerCase_ascii by assumption. reflexivity.
Qed.

Lemma DigitalIds_filteredData_on_ascii (data : list DigitalIds.TouristRecord)
    (searchTerm statusFilter nationalityFilter : string) :
  isAscii searchTerm = true ->
  forallb (fun r => isAscii (DigitalIds.name r) &&
                    isAscii (DigitalIds.digitalId r)) data = true ->
  DigitalIds.filteredData data searchTerm statusFilter nationalityFilter =
  DigitalIds.filteredData (CM := asciiCaseMapping)
                          data searchTerm statusFilter nationalityFilter.
Proof.
  intros Hq Hdata. unfold DigitalIds.filteredData.
  induction data as [|r data IH]; simpl; [reflexivity|].
  simpl in Hdata. apply andb_true_iff in Hdata. destruct Hdata as [Hr Hdata].
  apply andb_true_iff in Hr. destruct Hr as [Hn Hd].
  rewrite (DigitalIds_matches_on_ascii _ _ _ r Hq Hn Hd), (IH Hdata).
  reflexivity.
Qed.

End Dimensions.

(** ** The filters *)

(** C1.  On each of the three pages a record is in the filtered output
    exactly when it is in the collection and passes every dimension: for a
    dimension whose selection is not ["all"], the record's field is the
    selected value; and, on the page with a search box, the lowercased
    search term occurs in the lowercased name or in the lowercased digital
    identifier.  The conditions are conjoined.  This holds for whatever
    the language's lowercasing does outside ASCII; for a search term, a
    name and an identifier of ASCII characters the search condition is
    that the term occurs in the name or in the identifier up to the case
    of the letters. *)
Theorem filter_membership {CM : JsString.CaseMapping} :
  (forall data searchTerm statusFilter nationalityFilter r,
      In r (DigitalIds.filteredData data searchTerm statusFilter
                                    nationalityFilter) <->
      In r data /\
      (statusFilter <> "all" -> DigitalIds.status r = statusFilter) /\
      (nationalityFilter <> "all" ->
       DigitalIds.nationality r = nationalityFilter) /\
      (Substring (JsString.toLowerCase searchTerm)
                 (JsString.toLowerCase (DigitalIds.name r)) \/
       Substring (JsString.toLowerCase searchTerm)
                 (JsString.toLowerCase (DigitalIds.digitalId r)))) /\
  (forall alerts statusFilter priorityFilter a,
      In a (Alerts.filteredAlerts alerts statusFilter priorityFilter) <->
      In a alerts /\
      (statusFilter <> "all" -> Alerts.status a = statusFilter) /\
      (priorityFilter <> "all" -> Alerts.priority a = priorityFilter)) /\
  (forall cases statusFilter c,
      In c (EFir.filteredCases cases statusFilter) <->
      In c cases /\
      (statusFilter <> "all" -> EFir.status c = statusFilter)) /\
  (forall data searchTerm statusFilter nationalityFilter r,
      JsString.isAscii searchTerm = true ->
      JsString.isAscii (DigitalIds.name r) = true ->
      JsString.isAscii (DigitalIds.digitalId r) = true ->
      (In r (DigitalIds.filteredData data searchTerm statusFilter
                                     nationalityFilter) <->
       In r data /\
       (statusFilter <> "all" -> DigitalIds.status r = statusFilter) /\
       (nationalityFilter <> "all" ->
        DigitalIds.nationality r = nationalityFilter) /\
       (OccursIgnoringCase searchTerm (DigitalIds.name r) \/
        OccursIgnoringCase searchTerm (DigitalIds.digitalId r)))).
Proof.
  split; [|split; [|split]].
  - intros. unfold DigitalIds.filteredData.
    rewrite filter_In, DigitalIds_matches_iff. tauto.
  - intros. unfold Alerts.filteredAlerts.
    rewrite filter_In, Alerts_matches_iff. tauto.
  - intros. unfold EFir.filteredCases.
    rewrite filter_In, EFir_matches_iff. tauto.
  - intros data q statusFilter nationalityFilter r Hq Hn Hd.
    unfold DigitalIds.filteredData.
    rewrite filter_In, DigitalIds_matches_iff.
    rewrite !JsString.toLowerCase_ascii by assumption.
    rewrite !Substring_asciiLower. tauto.
Qed.

Lemma filter_membership_witness :
  In (DigitalIds.mkTouristRecord "2" "Marie Dubois" "TID-2024-002" "France"
        ["Lotus Temple"; "Humayun Tomb"] "+33-1-4567-8901" "active"
        "15 mins ago" "Lotus Temple")
     (DigitalIds.filteredData
         (CM := JsString.asciiCaseMapping)
         DigitalIds.mockTouristData
                              "DUBOIS" "active" "all").
Proof.
  apply (proj2 (proj2 (proj2
           (filter_membership (CM := JsString.asciiCaseMapping)))));
    try reflexivity.
  split; [simpl; auto|]. split; [reflexivity|].
  split; [intros H; contradiction|].
  left. exists "Marie ", "Dubois", "". split; reflexivity.
Defined.

(** C4.  With every dimension at ["all"] and an empty search term the
    filter returns the collection itself: every record, in its order. *)
Theorem filter_no_filter_identity {CM : JsString.CaseMapping} :
  (forall data, DigitalIds.filteredData data "" "all" "all" = data) /\
  (forall alerts, Alerts.filteredAlerts alerts "all" "all" = alerts) /\
  (forall cases, EFir.filteredCases cases "all" = cases).
Proof.
  split; [|split]; intros l.
  - apply filter_everything. intros r _. apply DigitalIds_matches_no_filter.
  - apply filter_everything. intros a _. reflexivity.
  - apply filter_everything. intros c _. reflexivity.
Qed.

(** C5.  Filtering is idempotent: filtering the filtered result again with
    the same configuration removes nothing more. *)
Theorem filter_idempotence {CM : JsString.CaseMapping} :
  (forall data searchTerm statusFilter nationalityFilter,
      DigitalIds.filteredData
        (DigitalIds.filteredData data searchTerm statusFilter
                                 nationalityFilter)
        searchTerm statusFilter nationalityFilter =
      DigitalIds.filteredData data searchTerm statusFilter
                              nationalityFilter) /\
  (forall alerts statusFilter priorityFilter,
      Alerts.filteredAlerts
        (Alerts.filteredAlerts alerts statusFilter priorityFilter)
        statusFilter priorityFilter =
      Alerts.filteredAlerts alerts statusFilter priorityFilter) /\
  (forall cases statusFilter,
      EFir.filteredCases (EFir.filteredCases cases statusFilter)
                         statusFilter =
      EFir.filteredCases cases statusFilter).
Proof.
  split; [|split]; intros; apply filter_idempotent.
Qed.

(** C6.  The filtered alerts are a subsequence of the collection: every
    alert of the result is in the collection, no alert occurs more often
    in the result than in the collection, and the result's alerts sit in
    the collection at increasing positions, so any two of them keep their
    relative order. *)
Theorem filtered_alerts_subsequence :
  forall alerts statusFilter priorityFilter,
    Subsequence (Alerts.filteredAlerts alerts statusFilter priorityFilter)
                alerts /\
    (forall a,
        In a (Alerts.filteredAlerts alerts statusFilter priorityFilter) ->
        In a alerts) /\
    (forall a,
        count_occ Alerts.Alert_eq_dec
          (Alerts.filteredAlerts alerts statusFilter priorityFilter) a <=
        count_occ Alerts.Alert_eq_dec alerts a) /\
    (exists pos : nat -> nat,
        (forall i j,
            i < j ->
            j < List.length
                  (Alerts.filteredAlerts alerts statusFilter priorityFilter) ->
            pos i < pos j) /\
        (forall i,
            i < List.length
                  (Alerts.filteredAlerts alerts statusFilter priorityFilter) ->
            nth_error
              (Alerts.filteredAlerts alerts statusFilter priorityFilter) i =
            nth_error alerts (pos i))).
Proof.
  intros alerts statusFilter priorityFilter.
  assert (S : Subsequence
                (Alerts.filteredAlerts alerts statusFilter priorityFilter)
                alerts) by apply Subsequence_filter.
  split; [exact S|]. split; [|split].
  - apply Subsequence_In. exact S.
  - apply Subsequence_count_occ. exact S.
  - apply Subsequence_positions. exact S.
Qed.

(** C10.  The empty search term imposes no constraint: it occurs in every
    lowercased name and identifier, and filtering with it gives what the
    status and nationality dimensions alone give. *)
Theorem empty_search_is_no_filter {CM : JsString.CaseMapping} :
  (forall s : string,
      Substring (JsString.toLowerCase "") (JsString.toLowerCase s) /\
      JsString.includes (JsString.toLowerCase s)
                        (JsString.toLowerCase "") = true) /\
  (forall data statusFilter nationalityFilter,
      DigitalIds.filteredData data "" statusFilter nationalityFilter =
      filter
        (fun record =>
           (JsString.strictEq statusFilter "all" ||
            JsString.strictEq (DigitalIds.status record) statusFilter) &&
           (JsString.strictEq nationalityFilter "all" ||
            JsString.strictEq (DigitalIds.nationality record)
                              nationalityFilter))
        data).
Proof.
  split.
  - intros s. rewrite toLowerCase_empty.
    split; [apply Substring_empty | apply includes_empty].
  - intros data statusFilter nationalityFilter.
    unfold DigitalIds.filteredData. apply filter_ext. intros r.
    unfold DigitalIds.matches. rewrite toLowerCase_empty.
    rewrite !includes_empty. reflexivity.
Qed.

(** ** The statistics tiles *)



(** C3, as the code has it.  On the digital-ID page every tile counts in
    the whole collection, whatever the filter.  For a collection of four
    records with statuses active, active, alert, inactive, the status
    selection ["active"] gives the two active records as rows, "Active
    Tourists" shows 2 and "Alert Status" shows 1. *)
Theorem digital_ids_tiles_count_collection {CM : JsString.CaseMapping} :
  forall data : list DigitalIds.TouristRecord,
    (forall searchTerm statusFilter nationalityFilter,
        DigitalIds.statTiles
          (DigitalIds.render data searchTerm statusFilter
                             nationalityFilter) =
        [ mkStat "Total Records" (JsString.toString (List.length data));
          mkStat "Active Tourists"
            (JsString.toString
               (List.length
                  (filter (fun r => JsString.strictEq (DigitalIds.status r)
                                                      "active") data)));
          mkStat "Alert Status"
            (JsString.toString
               (List.length
                  (filter (fun r => JsString.strictEq (DigitalIds.status r)
                                                      "alert") data)));
          mkStat "Nationalities"
            (JsString.toString
               (List.length
                  (nodup string_dec (map DigitalIds.nationality data)))) ])
    /\
    (map DigitalIds.status data = ["active"; "active"; "alert"; "inactive"] ->
     DigitalIds.tableRows (DigitalIds.render data "" "active" "all") =
     firstn 2 data /\
     map DigitalIds.status
         (DigitalIds.tableRows (DigitalIds.render data "" "active" "all")) =
     ["active"; "active"] /\
     statValue "Active Tourists"
       (DigitalIds.statTiles (DigitalIds.render data "" "active" "all")) =
     Some "2" /\
     statValue "Alert Status"
       (DigitalIds.statTiles (DigitalIds.render data "" "active" "all")) =
     Some "1").
Proof.
  intros data. split; [reflexivity|]. intros H.
  destruct data as [|r1 [|r2 [|r3 [|r4 [|r5 rest]]]]]; try discriminate H.
  injection H as H1 H2 H3 H4.
  unfold DigitalIds.render, DigitalIds.filteredData, DigitalIds.stats,
    DigitalIds.matches. rewrite toLowerCase_empty. simpl.
  rewrite !includes_empty, H1, H2, H3, H4. simpl. rewrite H1, H2.
  repeat split.
Qed.

Lemma digital_ids_tiles_count_collection_witness :
  map DigitalIds.status DigitalIds.mockTouristData =
  ["active"; "active"; "alert"; "inactive"] /\
  DigitalIds.tableRows
    (DigitalIds.render
        (CM := JsString.asciiCaseMapping)
        DigitalIds.mockTouristData "" "active" "all") =
  firstn 2 DigitalIds.mockTouristData /\
  statValue "Alert Status"
    (DigitalIds.statTiles
       (DigitalIds.render
           (CM := JsString.asciiCaseMapping)
           DigitalIds.mockTouristData "" "active" "all")) =
  Some "1".
Proof.
  split; [reflexivity|].
  destruct (digital_ids_tiles_count_collection
      (CM := JsString.asciiCaseMapping)
      DigitalIds.mockTouristData)
    as [_ Hscenario].
  destruct (Hscenario eq_refl) as [Hrows [_ [_ Halert]]].
  split; [exact Hrows | exact Halert].
Defined.

(** C3 as stated fails on the digital-ID page: with the status selection
    ["active"] the rows hold no record of status alert, and "Alert Status"
    shows 1, not the count 0 among the rows.  (The sample data are ASCII
    and the search term is empty: every case mapping gives these rows.) *)
Lemma digital_ids_alert_tile_not_filtered :
  map DigitalIds.status
    (DigitalIds.tableRows
       (DigitalIds.render
           (CM := JsString.asciiCaseMapping)
           DigitalIds.mockTouristData "" "active" "all")) =
  ["active"; "active"] /\
  List.length
    (filter (fun r => JsString.strictEq (DigitalIds.status r) "alert")
       (DigitalIds.tableRows
          (DigitalIds.render
              (CM := JsString.asciiCaseMapping)
              DigitalIds.mockTouristData "" "active" "all")))
  = 0 /\
  statValue "Alert Status"
    (DigitalIds.statTiles
       (DigitalIds.render
           (CM := JsString.asciiCaseMapping)
           DigitalIds.mockTouristData "" "active" "all")) <>
  Some "0".
Proof.
  split; [reflexivity|]. split; [reflexivity|].
  vm_compute. intros H. discriminate H.
Qed.

(** ** Badge lookups *)

Section ObjectFacts.
Context {A : Type}.
Import JsObject.

Lemma getOwn_missing (o : list (string * A)) (key : string) :
  ~ In key (map fst o) -> getOwn o key = None.
Proof.
  induction o as [|[k a] o IH]; simpl; intros H; [reflexivity|].
  destruct (String.eqb_spec k key) as [E|E]; [tauto|].
  apply IH. tauto.
Qed.

Lemma isPrototypeKey_iff (key : string) :
  existsb (String.eqb key) objectPrototypeKeys = true <->
  In key objectPrototypeKeys.
Proof.
  rewrite existsb_exists. split.
  - intros [k [Hin E]]. apply String.eqb_eq in E. subst. exact Hin.
  - intros Hin. exists key. split; [exact Hin | apply String.eqb_refl].
Qed.

(** A key that is neither an own property nor inherited reads as
    [undefined]. *)
Lemma get_missing (o : list (string * A)) (key : string) :
  ~ In key (map fst o) -> ~ In key objectPrototypeKeys -> get o key = None.
Proof.
  intros Hown Hproto. unfold get. rewrite getOwn_missing by exact Hown.
  destruct (existsb (String.eqb key) objectPrototypeKeys) eqn:E;
    [|reflexivity].
  apply isPrototypeKey_iff in E. contradiction.
Qed.

(** A key that is not an own property but is one of [Object.prototype]
    reads as the inherited member. *)
Lemma get_inherited (o : list (string * A)) (key : string) :
  ~ In key (map fst o) -> In key objectPrototypeKeys ->
  get o key = Some (Inherited key).
Proof.
  intros Hown Hproto. unfold get. rewrite getOwn_missing by exact Hown.
  apply isPrototypeKey_iff in Hproto. rewrite Hproto. reflexivity.
Qed.

End ObjectFacts.

(** The five lookups never return [undefined]. *)
Lemma badge_lookups_defined (s : string) :
  (exists m, DigitalIds.getStatusBadge s = Some m) /\
  (exists m, Alerts.getStatusBadge s = Some m) /\
  (exists m, Alerts.getPriorityBadge s = Some m) /\
  (exists m, EFir.getStatusBadge s = Some m) /\
  (exists m, EFir.getPriorityBadge s = Some m).
Proof.
  unfold DigitalIds.getStatusBadge, Alerts.getStatusBadge,
    Alerts.getPriorityBadge, EFir.getStatusBadge, EFir.getPriorityBadge.
  repeat split;
    match goal with
    | |- exists m, JsObject.or ?a ?b = Some m =>
        destruct a as [m|]; [exists m; reflexivity | eexists; reflexivity]
    end.
Qed.

(** A recognised value gets its own treatment. *)
Lemma badge_lookups_recognised :
  DigitalIds.getStatusBadge "active" =
    Some (JsObject.Own (mkBadge "default" "bg-success text-success-foreground"))
  /\ DigitalIds.getStatusBadge "inactive" =
    Some (JsObject.Own (mkBadge "secondary" ""))
  /\ DigitalIds.getStatusBadge "alert" =
    Some (JsObject.Own (mkBadge "destructive" ""))
  /\ Alerts.getStatusBadge "active" =
    Some (JsObject.Own (mkBadge "destructive" ""))
  /\ Alerts.getStatusBadge "investigating" =
    Some (JsObject.Own (mkBadge "default" "bg-warning text-warning-foreground"))
  /\ Alerts.getStatusBadge "resolved" =
    Some (JsObject.Own (mkBadge "default" "bg-success text-success-foreground"))
  /\ Alerts.getPriorityBadge "high" =
    Some (JsObject.Own (mkBadge "destructive" ""))
  /\ Alerts.getPriorityBadge "medium" =
    Some (JsObject.Own (mkBadge "default" "bg-warning text-warning-foreground"))
  /\ Alerts.getPriorityBadge "low" =
    Some (JsObject.Own (mkBadge "secondary" ""))
  /\ EFir.getStatusBadge "pending" =
    Some (JsObject.Own (mkBadge "outline" "text-warning bg-warning/10"))
  /\ EFir.getStatusBadge "investigating" =
    Some (JsObject.Own (mkBadge "default" "bg-info text-info-foreground"))
  /\ EFir.getStatusBadge "resolved" =
    Some (JsObject.Own (mkBadge "default" "bg-success text-success-foreground"))
  /\ EFir.getStatusBadge "closed" =
    Some (JsObject.Own (mkBadge "secondary" ""))
  /\ EFir.getPriorityBadge "high" = Alerts.getPriorityBadge "high"
  /\ EFir.getPriorityBadge "medium" = Alerts.getPriorityBadge "medium"
  /\ EFir.getPriorityBadge "low" = Alerts.getPriorityBadge "low".
Proof. repeat split. Qed.

(** A string that is neither a recognised value nor a property name of
    [Object.prototype] gets the default treatment: that of ["active"]
    (["pending"] on the E-FIR page) for a status, that of ["medium"] for a
    priority. *)
Lemma badge_lookups_default (s : string) :
  ~ In s JsObject.objectPrototypeKeys ->
  (~ In s DigitalIds.statusOptions ->
   DigitalIds.getStatusBadge s = DigitalIds.getStatusBadge "active") /\
  (~ In s Alerts.statusOptions ->
   Alerts.getStatusBadge s = Alerts.getStatusBadge "active") /\
  (~ In s Alerts.priorityOptions ->
   Alerts.getPriorityBadge s = Alerts.getPriorityBadge "medium") /\
  (~ In s EFir.statusOptions ->
   EFir.getStatusBadge s = EFir.getStatusBadge "pending") /\
  (~ In s Alerts.priorityOptions ->
   EFir.getPriorityBadge s = EFir.getPriorityBadge "medium").
Proof.
  intros Hproto.
  unfold DigitalIds.getStatusBadge, Alerts.getStatusBadge,
    Alerts.getPriorityBadge, EFir.getStatusBadge, EFir.getPriorityBadge.
  repeat split; intros Hown;
    (rewrite (get_missing _ s); [reflexivity | exact Hown | exact Hproto]).
Qed.

(** C8 at a property name of [Object.prototype].  Such a string is not a
    recognised value, and each of the five lookups returns the inherited
    member of that name, which is not the default treatment (nor any
    treatment). *)
Theorem badge_lookups_inherited_key :
  forall s, In s JsObject.objectPrototypeKeys ->
    DigitalIds.getStatusBadge s = Some (JsObject.Inherited s) /\
    Alerts.getStatusBadge s = Some (JsObject.Inherited s) /\
    Alerts.getPriorityBadge s = Some (JsObject.Inherited s) /\
    EFir.getStatusBadge s = Some (JsObject.Inherited s) /\
    EFir.getPriorityBadge s = Some (JsObject.Inherited s) /\
    DigitalIds.getStatusBadge s <> DigitalIds.getStatusBadge "active" /\
    Alerts.getStatusBadge s <> Alerts.getStatusBadge "active" /\
    Alerts.getPriorityBadge s <> Alerts.getPriorityBadge "medium" /\
    EFir.getStatusBadge s <> EFir.getStatusBadge "pending" /\
    EFir.getPriorityBadge s <> EFir.getPriorityBadge "medium".
Proof.
  intros s Hs.
  assert (H : DigitalIds.getStatusBadge s = Some (JsObject.Inherited s) /\
              Alerts.getStatusBadge s = Some (JsObject.Inherited s) /\
              Alerts.getPriorityBadge s = Some (JsObject.Inherited s) /\
              EFir.getStatusBadge s = Some (JsObject.Inherited s) /\
              EFir.getPriorityBadge s = Some (JsObject.Inherited s)).
  { simpl in Hs.
    repeat (destruct Hs as [<- | Hs]; [repeat split|]). contradiction. }
  destruct H as (H1 & H2 & H3 & H4 & H5).
  rewrite H1, H2, H3, H4, H5.
  repeat split; intros E; discriminate E.
Qed.

Lemma badge_lookups_inherited_key_witness :
  In "constructor" JsObject.objectPrototypeKeys /\
  DigitalIds.getStatusBadge "constructor" =
  Some (JsObject.Inherited "constructor").
Proof.
  split; [simpl; auto|].
  apply (badge_lookups_inherited_key "constructor"). simpl. auto.
Defined.

(** ** The reference number of a new case *)

(** Below 1000, padding the decimal numeral to three places with zeros
    gives the three-digit numeral. *)
Lemma padStart_three_digits (n : nat) :
  n < 1000 -> JsString.padStart (JsString.toString n) 3 "0" = threeDigits n.
Proof.
  intros H.
  assert (All : forallb
                  (fun k => String.eqb
                              (JsString.padStart (JsString.toString k) 3 "0")
                              (threeDigits k))
                  (seq 0 1000) = true) by (vm_compute; reflexivity).
  rewrite forallb_forall in All. apply String.eqb_eq, All, in_seq. lia.
Qed.

(** C9.  The reference number [handleSubmit] stores is ["FIR-2024-"]
    followed by the number of cases plus one, padded with zeros to three
    digits; it is the same for every state of the page, so for every
    content of the form; submitting again gives the same number; for the
    two sample cases it is ["FIR-2024-003"]. *)
Theorem fir_number_from_length :
  forall (cases : list EFir.EFIRCase) (st : EFir.State),
    EFir.generatedFIRNumber (fst (EFir.handleSubmit cases st)) =
    ("FIR-2024-" ++
     JsString.padStart (JsString.toString (List.length cases + 1)) 3 "0")%string
    /\
    (List.length cases + 1 < 1000 ->
     EFir.generatedFIRNumber (fst (EFir.handleSubmit cases st)) =
     ("FIR-2024-" ++ threeDigits (List.length cases + 1))%string) /\
    (forall st' : EFir.State,
        EFir.generatedFIRNumber (fst (EFir.handleSubmit cases st')) =
        EFir.generatedFIRNumber (fst (EFir.handleSubmit cases st))) /\
    (forall f : EFir.Form.NewEFIRForm -> EFir.Form.NewEFIRForm,
        EFir.generatedFIRNumber
          (fst (EFir.handleSubmit cases (EFir.setFormData f st))) =
        EFir.generatedFIRNumber (fst (EFir.handleSubmit cases st))) /\
    EFir.generatedFIRNumber
      (fst (EFir.handleSubmit cases (fst (EFir.handleSubmit cases st)))) =
    EFir.generatedFIRNumber (fst (EFir.handleSubmit cases st)) /\
    EFir.generatedFIRNumber (fst (EFir.handleSubmit EFir.mockEFIRCases st)) =
    "FIR-2024-003".
Proof.
  intros cases st. split; [reflexivity|]. split; [|repeat split].
  intros H. simpl. rewrite padStart_three_digits by exact H. reflexivity.
Qed.

Lemma fir_number_from_length_witness :
  List.length EFir.mockEFIRCases + 1 < 1000 /\
  EFir.generatedFIRNumber
    (fst (EFir.handleSubmit EFir.mockEFIRCases EFir.initialState)) =
  ("FIR-2024-" ++ threeDigits (List.length EFir.mockEFIRCases + 1))%string.
Proof.
  split; [simpl; lia|].
  destruct (fir_number_from_length EFir.mockEFIRCases EFir.initialState)
    as [_ [Hdigits _]].
  apply Hdigits. simpl. lia.
Defined.

(** ** Records that do not fit their interface *)

Section RuntimeFacts.
Import Runtime.
Context {CM : JsString.CaseMapping}.

Lemma runtime_strictEq_eq (v : value) (s : string) :
  strictEq v s = true <-> v = Str s.
Proof.
  destruct v as [| |t]; simpl; try (split; discriminate).
  rewrite String.eqb_eq. split; [intros ->; reflexivity|].
  intros H. injection H as ->. reflexivity.
Qed.

Lemma runtime_dimension_passes (selected : string) (field : value) :
  JsString.strictEq selected "all" || strictEq field selected = true <->
  (selected <> "all" -> field = Str selected).
Proof.
  rewrite orb_true_iff, strictEq_eq, runtime_strictEq_eq.
  destruct (string_dec selected "all"); tauto.
Qed.

(** When the callback throws on no element, [filter] returns, and keeps
    the elements the callback accepts. *)
Lemma filter_normal {A : Type} (f : A -> completion bool) (l : list A) :
  (forall x, In x l -> exists b, f x = Normal b) ->
  filter f l =
  Normal (List.filter
            (fun x => match f x with Normal b => b | Throw _ => false end)
            l).
Proof.
  induction l as [|x l IH]; intros H; simpl; [reflexivity|].
  destruct (H x (or_introl eq_refl)) as [b E]. rewrite E. simpl.
  rewrite IH by (intros y Hy; apply H; right; exact Hy).
  reflexivity.
Qed.

(** On an object whose name and identifier are strings the callback of
    the digital-ID page returns. *)
Lemma OnDigitalIds_matches_strings
    (searchTerm statusFilter nationalityFilter n d : string)
    (o : OnDigitalIds.TouristObject) :
  OnDigitalIds.name o = Str n -> OnDigitalIds.digitalId o = Str d ->
  OnDigitalIds.matches searchTerm statusFilter nationalityFilter o =
  Normal
    ((JsString.includes (JsString.toLowerCase n)
                        (JsString.toLowerCase searchTerm) ||
      JsString.includes (JsString.toLowerCase d)
                        (JsString.toLowerCase searchTerm)) &&
     (JsString.strictEq statusFilter "all" ||
      strictEq (OnDigitalIds.status o) statusFilter) &&
     (JsString.strictEq nationalityFilter "all" ||
      strictEq (OnDigitalIds.nationality o) nationalityFilter)).
Proof.
  intros Hn Hd. unfold OnDigitalIds.matches. rewrite Hn, Hd. simpl.
  destruct (JsString.includes (JsString.toLowerCase n)
                              (JsString.toLowerCase searchTerm));
    reflexivity.
Qed.

(** On records that fit the interface the run-time filter returns what
    the typed filter returns. *)
Lemma OnDigitalIds_filteredData_typed (data : list DigitalIds.TouristRecord)
    (searchTerm statusFilter nationalityFilter : string) :
  OnDigitalIds.filteredData (map OnDigitalIds.ofRecord data) searchTerm
                            statusFilter nationalityFilter =
  Normal (map OnDigitalIds.ofRecord
            (DigitalIds.filteredData data searchTerm statusFilter
                                     nationalityFilter)).
Proof.
  unfold OnDigitalIds.filteredData, DigitalIds.filteredData.
  induction data as [|r data IH]; simpl; [reflexivity|].
  rewrite (OnDigitalIds_matches_strings _ _ _ (DigitalIds.name r)
             (DigitalIds.digitalId r)) by reflexivity.
  simpl. rewrite IH. simpl. unfold DigitalIds.matches.
  destruct (_ && _ && _); reflexivity.
Qed.

Lemma OnAlerts_filteredAlerts_typed (alerts : list Alerts.Alert)
    (statusFilter priorityFilter : string) :
  OnAlerts.filteredAlerts (map OnAlerts.ofRecord alerts) statusFilter
                          priorityFilter =
  Normal (map OnAlerts.ofRecord
            (Alerts.filteredAlerts alerts statusFilter priorityFilter)).
Proof.
  unfold OnAlerts.filteredAlerts, Alerts.filteredAlerts.
  induction alerts as [|a alerts IH]; simpl; [reflexivity|].
  rewrite IH. simpl. unfold Alerts.matches.
  destruct (_ && _); reflexivity.
Qed.

Lemma all_not_an_option :
  ~ In "all" DigitalIds.statusOptions /\
  ~ In "all" Alerts.statusOptions /\
  ~ In "all" Alerts.priorityOptions.
Proof. simpl. repeat split; intros H; intuition discriminate. Qed.

(** [filter] throws exactly when the callback throws on some element. *)
Lemma filter_throws_iff {A : Type} (f : A -> completion bool)
    (l : list A) :
  (exists e, filter f l = Throw e) <->
  (exists x, In x l /\ exists e, f x = Throw e).
Proof.
  induction l as [|x l IH]; simpl.
  - split; [intros [e E]; discriminate | intros [x [[] _]]].
  - destruct (f x) as [b|e] eqn:E; simpl.
    + destruct (filter f l) as [kept|e'] eqn:F; simpl.
      * split; [intros [e H]; discriminate|].
        intros [y [[<-|Hy] [e He]]]; [congruence|].
        destruct (proj2 IH) as [e' H']; [eauto | discriminate].
      * split; [|eauto]. intros _.
        destruct (proj1 IH) as [y [Hy He]]; eauto.
    + split; [|eauto]. intros _. exists x. eauto.
Qed.

(** The elements of a returned result are those on which the callback
    returned [true]. *)
Lemma filter_normal_In {A : Type} (f : A -> completion bool) (l : list A)
    (result : list A) :
  filter f l = Normal result ->
  forall x, In x result <-> In x l /\ f x = Normal true.
Proof.
  revert result. induction l as [|y l IH]; simpl; intros result E x.
  - injection E as <-. simpl. tauto.
  - destruct (f y) as [b|e] eqn:Ey; simpl in E; [|discriminate].
    destruct (filter f l) as [kept|e] eqn:F; simpl in E; [|discriminate].
    injection E as <-. specialize (IH kept eq_refl x).
    destruct b; simpl; rewrite ?IH; split.
    + intros [<-|[H1 H2]]; auto.
    + intros [[<-|H1] H2]; auto.
    + intros [H1 H2]; auto.
    + intros [[<-|H1] H2]; [congruence | auto].
Qed.

(** The callback of the digital-ID page throws on an object whose name is
    no string, and on one whose name does not match while its identifier
    is no string; on no other. *)
Lemma OnDigitalIds_matches_throws_iff
    (searchTerm statusFilter nationalityFilter : string)
    (o : OnDigitalIds.TouristObject) :
  (exists e,
      OnDigitalIds.matches searchTerm statusFilter nationalityFilter o =
      Throw e) <->
  (forall n, OnDigitalIds.name o <> Str n) \/
  (exists n, OnDigitalIds.name o = Str n /\
             ~ Substring (JsString.toLowerCase searchTerm)
                         (JsString.toLowerCase n) /\
             forall d, OnDigitalIds.digitalId o <> Str d).
Proof.
  unfold OnDigitalIds.matches.
  destruct (OnDigitalIds.name o) as [| |n]; simpl.
  - split; [left; discriminate | eauto].
  - split; [left; discriminate | eauto].
  - destruct (JsString.includes _ _) eqn:I; simpl.
    + apply includes_Substring in I. split; [intros [e E]; discriminate|].
      intros [Hno|(n' & E & Hnot & _)]; [exfalso; apply (Hno n); reflexivity|].
      injection E as <-. contradiction.
    + assert (Hnot : ~ Substring (JsString.toLowerCase searchTerm)
                                 (JsString.toLowerCase n)).
      { intros S. apply includes_Substring in S. congruence. }
      destruct (OnDigitalIds.digitalId o) as [| |d]; simpl.
      * split; [|eauto]. intros _. right. exists n.
        split; [reflexivity|]. split; [exact Hnot | discriminate].
      * split; [|eauto]. intros _. right. exists n.
        split; [reflexivity|]. split; [exact Hnot | discriminate].
      * split; [intros [e E]; discriminate|].
        intros [Hno|(n' & _ & _ & Hd)];
          [exfalso; apply (Hno n) | exfalso; apply (Hd d)]; reflexivity.
Qed.

(** The callback of the digital-ID page returns [true] on an object
    exactly when its name is a string, the search term occurs in the
    lowercased name or in the lowercased identifier (a string, then), and
    the two selections let it pass. *)
Lemma OnDigitalIds_matches_true_iff
    (searchTerm statusFilter nationalityFilter : string)
    (o : OnDigitalIds.TouristObject) :
  OnDigitalIds.matches searchTerm statusFilter nationalityFilter o =
  Normal true <->
  (exists n,
      OnDigitalIds.name o = Str n /\
      (Substring (JsString.toLowerCase searchTerm) (JsString.toLowerCase n) \/
       exists d, OnDigitalIds.digitalId o = Str d /\
                 Substring (JsString.toLowerCase searchTerm)
                           (JsString.toLowerCase d))) /\
  (statusFilter <> "all" -> OnDigitalIds.status o = Str statusFilter) /\
  (nationalityFilter <> "all" ->
   OnDigitalIds.nationality o = Str nationalityFilter).
Proof.
  rewrite <- !runtime_dimension_passes. unfold OnDigitalIds.matches.
  destruct (OnDigitalIds.name o) as [| |n]; simpl;
    try (split; [discriminate | intros [(n' & E & _) _]; discriminate]).
  destruct (JsString.includes _ _) eqn:I; simpl.
  - apply includes_Substring in I. split.
    + intros E. injection E as E. apply andb_true_iff in E.
      split; [eauto|exact E].
    + intros [_ [E1 E2]]. rewrite E1, E2. reflexivity.
  - assert (Hnot : ~ Substring (JsString.toLowerCase searchTerm)
                               (JsString.toLowerCase n)).
    { intros S. apply includes_Substring in S. congruence. }
    destruct (OnDigitalIds.digitalId o) as [| |d]; simpl;
      try (split; [discriminate|];
           intros [(n' & E & [S|(d' & Ed & _)]) _];
           [injection E as <-; contradiction | discriminate]).
    split.
    + intros E. injection E as E. rewrite !andb_true_iff in E.
      destruct E as [[E0 E1] E2]. apply includes_Substring in E0.
      split; [|tauto]. exists n. split; [reflexivity|]. right. eauto.
    + intros [(n' & E & [S|(d' & Ed & S)]) [E1 E2]].
      * injection E as <-. contradiction.
      * injection Ed as <-. apply includes_Substring in S.
        rewrite S, E1, E2. reflexivity.
Qed.

End RuntimeFacts.

(** C7, as the code has it.  A status or priority that is [undefined],
    [null] or a string outside the page's options never makes a filter
    throw.  The alerts filter never throws.  The digital-ID filter throws
    exactly when some object's name is no string, or its name lacks the
    search term and its identifier is no string, whatever the statuses
    are; so it returns when every name and identifier is a string.
    Whenever a filter returns, an object with such a status or priority is
    in no result of a selection among the options of that dimension, and
    under ["all"] it is in the result exactly when the other conditions
    hold. *)
Theorem unrecognised_value_excluded_without_error
    {CM : JsString.CaseMapping} :
  forall (data : list Runtime.OnDigitalIds.TouristObject)
         (alerts : list Runtime.OnAlerts.AlertObject)
         (searchTerm statusFilter nationalityFilter : string)
         (alertStatusFilter priorityFilter : string),
    ((exists e,
         Runtime.OnDigitalIds.filteredData data searchTerm statusFilter
                                           nationalityFilter =
         Runtime.Throw e) <->
     (exists o,
         In o data /\
         ((forall n, Runtime.OnDigitalIds.name o <> Runtime.Str n) \/
          (exists n,
              Runtime.OnDigitalIds.name o = Runtime.Str n /\
              ~ Substring (JsString.toLowerCase searchTerm)
                          (JsString.toLowerCase n) /\
              forall d,
                Runtime.OnDigitalIds.digitalId o <> Runtime.Str d)))) /\
    ((forall o, In o data ->
        exists n d, Runtime.OnDigitalIds.name o = Runtime.Str n /\
                    Runtime.OnDigitalIds.digitalId o = Runtime.Str d) ->
     exists result,
       Runtime.OnDigitalIds.filteredData data searchTerm statusFilter
                                         nationalityFilter =
       Runtime.Normal result) /\
    (forall result,
        Runtime.OnDigitalIds.filteredData data searchTerm statusFilter
                                          nationalityFilter =
        Runtime.Normal result ->
        forall o,
          In o data ->
          (forall s, In s DigitalIds.statusOptions ->
                     Runtime.OnDigitalIds.status o <> Runtime.Str s) ->
          (In statusFilter DigitalIds.statusOptions -> ~ In o result) /\
          (statusFilter = "all" ->
           (In o result <->
            (exists n,
                Runtime.OnDigitalIds.name o = Runtime.Str n /\
                (Substring (JsString.toLowerCase searchTerm)
                           (JsString.toLowerCase n) \/
                 exists d,
                   Runtime.OnDigitalIds.digitalId o = Runtime.Str d /\
                   Substring (JsString.toLowerCase searchTerm)
                             (JsString.toLowerCase d))) /\
            (nationalityFilter <> "all" ->
             Runtime.OnDigitalIds.nationality o =
             Runtime.Str nationalityFilter)))) /\
    (exists result,
        Runtime.OnAlerts.filteredAlerts alerts alertStatusFilter
                                        priorityFilter =
        Runtime.Normal result /\
        forall a,
          In a alerts ->
          ((forall s, In s Alerts.statusOptions ->
                      Runtime.OnAlerts.status a <> Runtime.Str s) ->
           (In alertStatusFilter Alerts.statusOptions -> ~ In a result) /\
           (alertStatusFilter = "all" ->
            (In a result <->
             (priorityFilter <> "all" ->
              Runtime.OnAlerts.priority a = Runtime.Str priorityFilter)))) /\
          ((forall s, In s Alerts.priorityOptions ->
                      Runtime.OnAlerts.priority a <> Runtime.Str s) ->
           (In priorityFilter Alerts.priorityOptions -> ~ In a result) /\
           (priorityFilter = "all" ->
            (In a result <->
             (alertStatusFilter <> "all" ->
              Runtime.OnAlerts.status a =
              Runtime.Str alertStatusFilter))))).
Proof.
  intros data alerts searchTerm statusFilter nationalityFilter
         alertStatusFilter priorityFilter.
  destruct all_not_an_option as (NoAll1 & NoAll2 & NoAll3).
  split; [|split; [|split]].
  - unfold Runtime.OnDigitalIds.filteredData. rewrite filter_throws_iff.
    split; intros (o & Ho & H); exists o; (split; [exact Ho|]);
      apply (OnDigitalIds_matches_throws_iff searchTerm statusFilter
               nationalityFilter o); exact H.
  - intros Hstrings. unfold Runtime.OnDigitalIds.filteredData.
    rewrite filter_normal; [eauto|].
    intros o Ho. destruct (Hstrings o Ho) as (n & d & Hn & Hd).
    rewrite (OnDigitalIds_matches_strings _ _ _ n d o Hn Hd). eauto.
  - intros result Hresult o Ho Hodd.
    unfold Runtime.OnDigitalIds.filteredData in Hresult.
    rewrite (filter_normal_In _ _ _ Hresult o).
    rewrite OnDigitalIds_matches_true_iff. split.
    + intros Hsel [_ [_ [Hst _]]].
      apply (Hodd statusFilter Hsel). apply Hst.
      intros ->. contradiction.
    + intros ->. tauto.
  - eexists. split.
    + unfold Runtime.OnAlerts.filteredAlerts. apply filter_normal.
      intros a _. unfold Runtime.OnAlerts.matches. eauto.
    + intros a Ha. rewrite filter_In. unfold Runtime.OnAlerts.matches.
      rewrite andb_true_iff, !runtime_dimension_passes.
      split; intros Hodd; split.
      * intros Hsel [_ [Hst _]].
        apply (Hodd alertStatusFilter Hsel). apply Hst.
        intros ->. contradiction.
      * intros ->. tauto.
      * intros Hsel [_ [_ Hpr]].
        apply (Hodd priorityFilter Hsel). apply Hpr.
        intros ->. contradiction.
      * intros ->. tauto.
Qed.

Lemma unrecognised_value_excluded_without_error_witness :
  exists result,
    Runtime.OnDigitalIds.filteredData (CM := JsString.asciiCaseMapping)
      [ Runtime.OnDigitalIds.mkTouristObject
          (Runtime.Str "John Smith") (Runtime.Str "TID-2024-001")
          (Runtime.Str "USA") Runtime.Undefined;
        Runtime.OnDigitalIds.mkTouristObject
          (Runtime.Str "Marie Dubois") (Runtime.Str "TID-2024-002")
          (Runtime.Str "France") (Runtime.Str "lost") ]
      "" "active" "all" = Runtime.Normal result.
Proof.
  destruct (unrecognised_value_excluded_without_error
      (CM := JsString.asciiCaseMapping)
              [ Runtime.OnDigitalIds.mkTouristObject
                  (Runtime.Str "John Smith") (Runtime.Str "TID-2024-001")
                  (Runtime.Str "USA") Runtime.Undefined;
                Runtime.OnDigitalIds.mkTouristObject
                  (Runtime.Str "Marie Dubois") (Runtime.Str "TID-2024-002")
                  (Runtime.Str "France") (Runtime.Str "lost") ]
              [] "" "active" "all" "all" "all")
    as [_ [Hreturns _]].
  apply Hreturns.
  intros o [<- | [<- | []]]; simpl; eauto.
Defined.

(** C7 as stated fails on the digital-ID page: an object whose status is
    missing and whose name is missing too makes the filter throw, and so
    does one with an unknown status and no identifier under a search term
    its name lacks.  (Names and term are ASCII: every case mapping gives
    these outcomes.) *)
Lemma unrecognised_status_with_missing_name_throws :
  Runtime.OnDigitalIds.filteredData (CM := JsString.asciiCaseMapping)
    [ Runtime.OnDigitalIds.mkTouristObject
        Runtime.Undefined (Runtime.Str "TID-2024-009")
        (Runtime.Str "USA") Runtime.Undefined ]
    "" "all" "all" = Runtime.Throw "TypeError" /\
  Runtime.OnDigitalIds.filteredData (CM := JsString.asciiCaseMapping)
    [ Runtime.OnDigitalIds.mkTouristObject
        (Runtime.Str "Marie Dubois") Runtime.Null
        (Runtime.Str "France") (Runtime.Str "lost") ]
    "john" "all" "all" = Runtime.Throw "TypeError".
Proof. split; reflexivity. Qed.

(** ** The sample collections *)

(** The search term ["mar"] finds Marie Dubois alone. *)
Example search_mar {CM : JsString.CaseMapping} :
  map DigitalIds.digitalId
      (DigitalIds.filteredData DigitalIds.mockTouristData "mar" "all" "all") =
  ["TID-2024-002"].
Proof. rewrite DigitalIds_filteredData_on_ascii; reflexivity. Qed.

(** Selections are compared exactly: ["Active"] selects nothing. *)
Example status_is_case_sensitive {CM : JsString.CaseMapping} :
  DigitalIds.filteredData DigitalIds.mockTouristData "" "Active" "all" = [].
Proof. rewrite DigitalIds_filteredData_on_ascii; reflexivity. Qed.

(** Of the two sample cases one is under investigation. *)
Example cases_investigating :
  map EFir.firNumber
      (EFir.filteredCases EFir.mockEFIRCases "investigating") =
  ["FIR-2024-001"].
Proof. reflexivity. Qed.

(** Of the three sample alerts the first two are of high priority. *)
Example alerts_high_priority :
  map Alerts.id (Alerts.filteredAlerts Alerts.mockAlerts "all" "high") =
  ["1"; "2"].
Proof. reflexivity. Qed.

(** The headings of the three sample alerts. *)
Example sample_headings {CM : JsString.CaseMapping} :
  map Alerts.alertTypeLabel Alerts.mockAlerts =
  ["GEO FENCE"; "PANIC"; "ANOMALY"].
Proof.
  unfold Alerts.alertTypeLabel, Alerts.mockAlerts. simpl map.
  rewrite !JsString.toUpperCase_ascii by reflexivity. reflexivity.
Qed.

(** The sample collections, seen as run-time objects, pass the run-time
    filter without an exception. *)
Example sample_tourists_at_run_time {CM : JsString.CaseMapping} :
  Runtime.OnDigitalIds.filteredData
    (map Runtime.OnDigitalIds.ofRecord DigitalIds.mockTouristData)
    "TID" "alert" "Japan" =
  Runtime.Normal
    (map Runtime.OnDigitalIds.ofRecord
       (DigitalIds.filteredData DigitalIds.mockTouristData
                                "TID" "alert" "Japan")).
Proof. apply OnDigitalIds_filteredData_typed. Qed.

(** * Further properties of the pages *)

(** ** The sidebar *)

Lemma isActive_cases (currentPath path : string) :
  AppSidebar.isActive currentPath path = true <->
  (path = "/" /\ currentPath = "/") \/
  (path <> "/" /\ JsString.startsWith currentPath path = true).
Proof.
  unfold AppSidebar.isActive, JsString.strictEq.
  destruct (String.eqb_spec path "/") as [Hp|Hp]; simpl.
  - destruct (String.eqb_spec currentPath "/") as [Hc|Hc].
    + split; auto.
    + split; [discriminate|]. intros [[_ H]|[H _]]; contradiction.
  - destruct (JsString.startsWith currentPath path) eqn:E.
    + split; auto.
    + split; [discriminate|]. intros [[H _]|[_ H]];
        [contradiction | discriminate].
Qed.

(** A menu entry is active when the current path is its address extended
    by anything; the entry ["/"] is active on the path ["/"] alone. *)
Theorem isActive_is_prefix_match :
  forall currentPath path : string,
    AppSidebar.isActive currentPath path = true <->
    (path = "/" /\ currentPath = "/") \/
    (path <> "/" /\ exists rest, currentPath = (path ++ rest)%string).
Proof.
  intros currentPath path. unfold AppSidebar.isActive, JsString.strictEq.
  destruct (String.eqb_spec path "/") as [Hp|Hp]; simpl.
  - destruct (String.eqb_spec currentPath "/") as [Hc|Hc].
    + split; auto.
    + split; [discriminate|]. intros [[_ H]|[H _]]; contradiction.
  - destruct (JsString.startsWith currentPath path) eqn:E.
    + apply startsWith_prefix in E. split; auto.
    + split; [discriminate|]. intros [[H _]|[_ H]]; [contradiction|].
      apply startsWith_prefix in H. congruence.
Qed.

(** The classes of a link are the highlighted ones exactly when its entry
    is active. *)
Lemma getNavClasses_highlighted (currentPath path : string) :
  AppSidebar.getNavClasses currentPath path =
  "flex items-center w-full transition-colors bg-primary text-primary-foreground hover:bg-primary-dark"
  <-> AppSidebar.isActive currentPath path = true.
Proof.
  unfold AppSidebar.getNavClasses.
  destruct (AppSidebar.isActive currentPath path); simpl.
  - split; reflexivity.
  - split; discriminate.
Qed.

(** Whatever the current path and the sidebar state, the sidebar has its
    four links, in the order of the menu, and at most one of them carries
    the highlighted classes. *)
Theorem sidebar_highlights_at_most_one :
  forall state currentPath : string,
    map AppSidebar.to (snd (AppSidebar.render state currentPath)) =
    ["/"; "/digital-ids"; "/alerts"; "/efir"] /\
    List.length
      (filter
         (fun link =>
            String.eqb (AppSidebar.navClassName link)
              "flex items-center w-full transition-colors bg-primary text-primary-foreground hover:bg-primary-dark")
         (snd (AppSidebar.render state currentPath))) <= 1.
Proof.
  intros state currentPath. split; [reflexivity|].
  unfold AppSidebar.render, AppSidebar.menuItems, AppSidebar.getNavClasses.
  simpl snd. simpl map. simpl filter.
  destruct (AppSidebar.isActive currentPath "/") eqn:E1;
    destruct (AppSidebar.isActive currentPath "/digital-ids") eqn:E2;
    destruct (AppSidebar.isActive currentPath "/alerts") eqn:E3;
    destruct (AppSidebar.isActive currentPath "/efir") eqn:E4;
    simpl; try lia; exfalso;
    repeat match goal with
      | H : AppSidebar.isActive _ _ = true |- _ =>
          apply isActive_cases in H;
          destruct H as [[Hp Hc]|[Hp Hc]];
          [try discriminate Hp | apply startsWith_prefix in Hc;
                                 destruct Hc as [rest Hc]]
      | H : AppSidebar.isActive _ _ = false |- _ => clear H
      end;
    subst; simpl in *; try discriminate; try congruence.
Qed.

(** ** The rows of the digital-ID table *)

(** The itinerary cell shows the dots exactly when the itinerary has more
    than two waypoints, that is exactly when the text leaves a waypoint
    out; up to two waypoints are all in the text. *)
Theorem itinerary_cell_dots :
  forall record : DigitalIds.TouristRecord,
    (snd (DigitalIds.itineraryCell record) = Some "..." <->
     2 < List.length (DigitalIds.itinerary record)) /\
    (snd (DigitalIds.itineraryCell record) = None <->
     firstn 2 (DigitalIds.itinerary record) = DigitalIds.itinerary record) /\
    (snd (DigitalIds.itineraryCell record) = None ->
     fst (DigitalIds.itineraryCell record) =
     JsString.join ", " (DigitalIds.itinerary record)).
Proof.
  intros record. unfold DigitalIds.itineraryCell. simpl.
  destruct (DigitalIds.itinerary record) as [|w1 [|w2 [|w3 rest]]]; simpl;
    repeat split; intros; try reflexivity; try discriminate; try lia.
Qed.

Lemma itinerary_cell_dots_witness :
  fst (DigitalIds.itineraryCell
         (DigitalIds.mkTouristRecord "2" "Marie Dubois" "TID-2024-002"
            "France" ["Lotus Temple"; "Humayun Tomb"] "+33-1-4567-8901"
            "active" "15 mins ago" "Lotus Temple")) =
  "Lotus Temple, Humayun Tomb".
Proof.
  destruct (itinerary_cell_dots
              (DigitalIds.mkTouristRecord "2" "Marie Dubois" "TID-2024-002"
                 "France" ["Lotus Temple"; "Humayun Tomb"] "+33-1-4567-8901"
                 "active" "15 mins ago" "Lotus Temple"))
    as [_ [_ Hall]].
  rewrite Hall; reflexivity.
Defined.

(** ** The map of the alerts page *)

Lemma find_first_match {A : Type} (p : A -> bool) (before after : list A)
    (a : A) :
  (forall b, In b before -> p b = false) -> p a = true ->
  find p (before ++ a :: after) = Some a.
Proof.
  intros Hbefore Ha. induction before as [|b before IH]; simpl.
  - rewrite Ha. reflexivity.
  - rewrite (Hbefore b (or_introl eq_refl)). apply IH.
    intros c Hc. apply Hbefore. right. exact Hc.
Qed.

Lemma find_no_match {A : Type} (p : A -> bool) (l : list A) :
  (forall b, In b l -> p b = false) -> find p l = None.
Proof.
  intros H. induction l as [|b l IH]; simpl; [reflexivity|].
  rewrite (H b (or_introl eq_refl)). apply IH.
  intros c Hc. apply H. right. exact Hc.
Qed.

Lemma strictEq_neq (a b : string) : a <> b -> JsString.strictEq a b = false.
Proof.
  intros H. destruct (JsString.strictEq a b) eqn:E; [|reflexivity].
  apply strictEq_eq in E. contradiction.
Qed.

(** The marker of a tourist follows the first alert of that tourist in
    the collection: red for priority high, amber for medium, green for
    anything else, with that alert's tourist name in the popup (or
    "Unknown Tourist" for an empty name).  Alerts of the same tourist
    further down the collection, whatever their priority, change
    nothing. *)
Theorem marker_follows_first_alert :
  forall (before after : list Alerts.Alert) (a : Alerts.Alert)
         (location : Alerts.Tracking.LocationData),
    Alerts.touristId a = Alerts.Tracking.touristId location ->
    (forall b, In b before ->
               Alerts.touristId b <> Alerts.Tracking.touristId location) ->
    Alerts.fillColor (Alerts.markerOf (before ++ a :: after) location) =
    (if JsString.strictEq (Alerts.priority a) "high" then "#ef4444"
     else if JsString.strictEq (Alerts.priority a) "medium" then "#f59e0b"
     else "#10b981") /\
    Alerts.popupName (Alerts.markerOf (before ++ a :: after) location) =
    (if JsString.strictEq (Alerts.touristName a) "" then "Unknown Tourist"
     else Alerts.touristName a) /\
    Alerts.markerOf (before ++ a :: after) location =
    Alerts.markerOf [a] location.
Proof.
  intros before after a location Ha Hbefore.
  assert (F : Alerts.alertOf (before ++ a :: after) location = Some a).
  { unfold Alerts.alertOf. apply find_first_match.
    - intros b Hb. apply strictEq_neq. apply Hbefore. exact Hb.
    - apply strictEq_eq. exact Ha. }
  assert (F1 : Alerts.alertOf [a] location = Some a).
  { apply (find_first_match _ [] []); [intros b []|].
    apply strictEq_eq. exact Ha. }
  unfold Alerts.markerOf. rewrite F, F1. simpl. repeat split.
Qed.

Lemma marker_follows_first_alert_witness :
  Alerts.fillColor
    (Alerts.markerOf
       [ Alerts.mkAlert "1" "TID-1" "Ann" "anomaly" "t1" "resolved"
           (0%Q, 0%Q) "first" "low";
         Alerts.mkAlert "2" "TID-1" "Ann" "panic" "t2" "active"
           (0%Q, 0%Q) "second" "high" ]
       (Alerts.Tracking.mkLocationData "1" "TID-1" (0%Q, 0%Q) "t3" 5)) =
  "#10b981".
Proof.
  apply (marker_follows_first_alert []
           [ Alerts.mkAlert "2" "TID-1" "Ann" "panic" "t2" "active"
               (0%Q, 0%Q) "second" "high" ]
           (Alerts.mkAlert "1" "TID-1" "Ann" "anomaly" "t1" "resolved"
              (0%Q, 0%Q) "first" "low")
           (Alerts.Tracking.mkLocationData "1" "TID-1" (0%Q, 0%Q) "t3" 5)).
  - reflexivity.
  - intros b [].
Defined.

(** Every location gets its marker, in order, at its own coordinates and
    with its own identifier, whatever the alerts are; a tourist without
    any alert gets a green marker named "Unknown Tourist". *)
Theorem marker_without_alert :
  forall (alerts : list Alerts.Alert)
         (locations : list Alerts.Tracking.LocationData),
    map Alerts.center (Alerts.markers alerts locations) =
    map Alerts.Tracking.location locations /\
    map Alerts.popupId (Alerts.markers alerts locations) =
    map Alerts.Tracking.touristId locations /\
    (forall location,
        In location locations ->
        (forall a, In a alerts ->
                   Alerts.touristId a <>
                   Alerts.Tracking.touristId location) ->
        exists m,
          In m (Alerts.markers alerts locations) /\
          Alerts.center m = Alerts.Tracking.location location /\
          Alerts.fillColor m = "#10b981" /\
          Alerts.popupName m = "Unknown Tourist").
Proof.
  intros alerts locations. unfold Alerts.markers.
  split; [|split].
  - rewrite map_map. reflexivity.
  - rewrite map_map. reflexivity.
  - intros location Hin Hnone.
    exists (Alerts.markerOf alerts location). split.
    + apply in_map. exact Hin.
    + unfold Alerts.markerOf, Alerts.alertOf.
      rewrite find_no_match; [simpl; auto|].
      intros b Hb. apply strictEq_neq. apply Hnone. exact Hb.
Qed.

Lemma marker_without_alert_witness :
  exists m,
    In m (Alerts.markers Alerts.mockAlerts
            [Alerts.Tracking.mkLocationData "9" "TID-2024-009"
               (28.6%Q, 77.2%Q) "2024-01-15 15:00:00" 4]) /\
    Alerts.fillColor m = "#10b981".
Proof.
  destruct (marker_without_alert Alerts.mockAlerts
              [Alerts.Tracking.mkLocationData "9" "TID-2024-009"
                 (28.6%Q, 77.2%Q) "2024-01-15 15:00:00" 4])
    as [_ [_ H]].
  destruct (H (Alerts.Tracking.mkLocationData "9" "TID-2024-009"
                 (28.6%Q, 77.2%Q) "2024-01-15 15:00:00" 4))
    as [m [Hin [_ [Hcolor _]]]].
  - left. reflexivity.
  - intros a [<- | [<- | [<- | []]]]; simpl; discriminate.
  - exists m. split; [exact Hin | exact Hcolor].
Defined.

(** ** The heading of an alert *)

Lemma replace_first_hyphen (a b : string) :
  ~ Substring "-" a ->
  JsString.replace (a ++ "-" ++ b) "-" " " = (a ++ " " ++ b)%string.
Proof.
  induction a as [|c a IH]; intros Hfree; simpl; [reflexivity|].
  destruct (Ascii.eqb_spec c "-"%char) as [E|E].
  - exfalso. apply Hfree. exists EmptyString, a. subst. reflexivity.
  - simpl. f_equal. apply IH.
    intros [pre [post H]]. apply Hfree.
    exists (String c pre), post. simpl. rewrite H. reflexivity.
Qed.

Lemma replace_no_hyphen (a : string) :
  ~ Substring "-" a -> JsString.replace a "-" " " = a.
Proof.
  induction a as [|c a IH]; intros Hfree; simpl; [reflexivity|].
  destruct (Ascii.eqb_spec c "-"%char) as [E|E].
  - exfalso. apply Hfree. exists EmptyString, a. subst. reflexivity.
  - simpl. f_equal. apply IH.
    intros [pre [post H]]. apply Hfree.
    exists (String c pre), post. simpl. rewrite H. reflexivity.
Qed.

(** The heading of an alert is its type in capitals with the first hyphen
    turned into a space: hyphens after the first one stay, and a type
    without a hyphen is only capitalised. *)
Theorem alert_heading_first_hyphen {CM : JsString.CaseMapping} :
  forall alert : Alerts.Alert,
    (forall a b,
        Alerts.alertType alert = (a ++ "-" ++ b)%string ->
        ~ Substring "-" a ->
        Alerts.alertTypeLabel alert =
        JsString.toUpperCase (a ++ " " ++ b)) /\
    (~ Substring "-" (Alerts.alertType alert) ->
     Alerts.alertTypeLabel alert =
     JsString.toUpperCase (Alerts.alertType alert)).
Proof.
  intros alert. unfold Alerts.alertTypeLabel. split.
  - intros a b -> Hfree. rewrite replace_first_hyphen by exact Hfree.
    reflexivity.
  - intros Hfree. rewrite replace_no_hyphen by exact Hfree. reflexivity.
Qed.

Lemma alert_heading_first_hyphen_witness :
  Alerts.alertTypeLabel (CM := JsString.asciiCaseMapping)
    (Alerts.mkAlert "1" "TID-2024-003" "Hiroshi Tanaka" "geo-fence-exit"
       "2024-01-15 14:30:00" "active" (28.6562%Q, 77.2410%Q) "" "high") =
  "GEO FENCE-EXIT".
Proof.
  destruct (alert_heading_first_hyphen (CM := JsString.asciiCaseMapping)
              (Alerts.mkAlert "1" "TID-2024-003" "Hiroshi Tanaka"
                 "geo-fence-exit" "2024-01-15 14:30:00" "active"
                 (28.6562%Q, 77.2410%Q) "" "high")) as [H _].
  apply (H "geo" "fence-exit").
  - reflexivity.
  - intros [pre [post E]].
    destruct pre as [|c1 [|c2 [|c3 [|c4 pre]]]]; simpl in E;
      discriminate E.
Defined.

(** ** The selected alert *)

Lemma handle_keeps_selection_in_collection (alerts : list Alerts.Alert)
    (st : Alerts.State) (e : Alerts.Event) :
  (forall a, Alerts.selectedAlert st = Some a -> In a alerts) ->
  forall a, Alerts.selectedAlert (Alerts.handle alerts st e) = Some a ->
            In a alerts.
Proof.
  intros Inv a. destruct e as [v|v|i|]; simpl; try apply Inv.
  - destruct (nth_error _ i) as [clicked|] eqn:E; simpl; [|apply Inv].
    intros H. injection H as <-. apply nth_error_In in E.
    unfold Alerts.filteredAlerts in E. apply filter_In in E. tauto.
  - discriminate.
Qed.

(** Whatever the user does on the alerts page, starting with nothing
    selected, the alert shown in the details card is an alert of the
    collection; choosing in a select never changes it. *)
Theorem selected_alert_in_collection :
  forall (alerts : list Alerts.Alert) (events : list Alerts.Event)
         (a : Alerts.Alert),
    Alerts.selectedAlert (Alerts.run alerts Alerts.initialState events) =
    Some a ->
    In a alerts /\
    (forall v,
        Alerts.selectedAlert
          (Alerts.run alerts Alerts.initialState
                      (events ++ [Alerts.ChooseStatus v])) = Some a) /\
    (forall v,
        Alerts.selectedAlert
          (Alerts.run alerts Alerts.initialState
                      (events ++ [Alerts.ChoosePriority v])) = Some a).
Proof.
  intros alerts events a H. split.
  - revert a H. unfold Alerts.run.
    assert (G : forall st,
               (forall a, Alerts.selectedAlert st = Some a -> In a alerts) ->
               forall a,
                 Alerts.selectedAlert
                   (fold_left (Alerts.handle alerts) events st) = Some a ->
                 In a alerts).
    { induction events as [|e events IH]; intros st Inv; simpl.
      - exact Inv.
      - apply IH. apply handle_keeps_selection_in_collection. exact Inv. }
    apply G. simpl. discriminate.
  - unfold Alerts.run in *. split; intros v; rewrite fold_left_app; simpl;
      exact H.
Qed.

Lemma selected_alert_in_collection_witness :
  exists a,
    Alerts.selectedAlert
      (Alerts.run Alerts.mockAlerts Alerts.initialState
                  [Alerts.ClickRow 0; Alerts.ChooseStatus "resolved"]) =
    Some a /\
    In a Alerts.mockAlerts /\
    ~ In a (Alerts.filteredAlerts Alerts.mockAlerts "resolved" "all").
Proof.
  eexists. split; [reflexivity|]. split.
  - apply (selected_alert_in_collection Alerts.mockAlerts
             [Alerts.ClickRow 0; Alerts.ChooseStatus "resolved"]).
    reflexivity.
  - simpl. intros [H|[]]. discriminate H.
Defined.

(** ** The form of the E-FIR page *)

(** After [handleInputChange(field, value)] the form holds [value] in
    [field] and what it held before in every other field; the other state
    cells are as before. *)
Theorem input_change_updates_one_field :
  forall (field : EFir.Key.keyof) (value : string) (st : EFir.State),
    EFir.getField (EFir.formData (EFir.handleInputChange field value st))
                  field = value /\
    (forall other,
        other <> field ->
        EFir.getField (EFir.formData (EFir.handleInputChange field value st))
                      other =
        EFir.getField (EFir.formData st) other) /\
    EFir.isFormOpen (EFir.handleInputChange field value st) =
    EFir.isFormOpen st /\
    EFir.isConfirmationOpen (EFir.handleInputChange field value st) =
    EFir.isConfirmationOpen st /\
    EFir.generatedFIRNumber (EFir.handleInputChange field value st) =
    EFir.generatedFIRNumber st /\
    EFir.statusFilter (EFir.handleInputChange field value st) =
    EFir.statusFilter st.
Proof.
  intros field value st. split; [destruct field; reflexivity|].
  split; [|repeat split].
  intros other Hneq. destruct field, other; try reflexivity; contradiction.
Qed.

(** Input changes compose as writes to a record: a second write to the
    same field replaces the first, writes to different fields commute, and
    writing the value a field already holds changes nothing. *)
Theorem input_changes_compose :
  forall (st : EFir.State),
    (forall field v1 v2,
        EFir.handleInputChange field v2
          (EFir.handleInputChange field v1 st) =
        EFir.handleInputChange field v2 st) /\
    (forall f1 f2 v1 v2,
        f1 <> f2 ->
        EFir.handleInputChange f1 v1 (EFir.handleInputChange f2 v2 st) =
        EFir.handleInputChange f2 v2 (EFir.handleInputChange f1 v1 st)) /\
    (forall field,
        EFir.handleInputChange field
          (EFir.getField (EFir.formData st) field) st = st).
Proof.
  intros [fo co num sf [f1 f2 f3 f4 f5 f6 f7]]. split; [|split].
  - intros field v1 v2. destruct field; reflexivity.
  - intros g1 g2 v1 v2 Hneq.
    destruct g1, g2; try reflexivity; contradiction.
  - intros field. destruct field; reflexivity.
Qed.

(** ** Sequences of events on the E-FIR page *)

Lemma handle_keeps_number (cases : list EFir.EFIRCase) (st : EFir.State)
    (e : EFir.Event) :
  EFir.generatedFIRNumber (fst (EFir.handle cases st e)) =
  EFir.generatedFIRNumber st \/
  EFir.generatedFIRNumber (fst (EFir.handle cases st e)) =
  EFir.generatedFIRNumber (fst (EFir.handleSubmit cases st)).
Proof. destruct e; simpl; auto. Qed.

(** Whatever the user does on the E-FIR page, the reference number it
    shows is the one it showed at the start (none, on a fresh page) or
    ["FIR-2024-"] with the padded number of cases plus one; every toast
    shown on the way announces that same number; and there is one toast
    for each submission. *)
Theorem efir_only_one_reference_number :
  forall (cases : list EFir.EFIRCase) (st : EFir.State)
         (events : list EFir.Event),
    (EFir.generatedFIRNumber (fst (EFir.run cases st events)) =
     EFir.generatedFIRNumber st \/
     EFir.generatedFIRNumber (fst (EFir.run cases st events)) =
     ("FIR-2024-" ++
      JsString.padStart (JsString.toString (List.length cases + 1)) 3 "0")
       %string) /\
    (forall toast,
        In toast (snd (EFir.run cases st events)) ->
        toast =
        EFir.Toast.mkToast "E-FIR Generated Successfully"
          ("FIR Number: FIR-2024-" ++
           JsString.padStart (JsString.toString (List.length cases + 1))
                             3 "0")) /\
    List.length (snd (EFir.run cases st events)) =
    List.length
      (filter (fun e => match e with EFir.Submit => true | _ => false end)
              events).
Proof.
  intros cases st events. revert st.
  induction events as [|e events IH]; intros st; simpl.
  - split; [left; reflexivity|]. split; [intros toast []|reflexivity].
  - destruct (EFir.handle cases st e) as [st' shown] eqn:Eh.
    destruct (EFir.run cases st' events) as [final later] eqn:Er.
    specialize (IH st'). rewrite Er in IH. simpl in IH.
    destruct IH as [Hnum [Htoasts Hcount]]. simpl.
    pose proof (handle_keeps_number cases st e) as Hstep.
    rewrite Eh in Hstep. simpl in Hstep.
    split; [|split].
    + destruct Hnum as [Hnum|Hnum]; [|right; exact Hnum].
      rewrite Hnum. destruct Hstep as [Hstep|Hstep]; [left|right]; exact Hstep.
    + intros toast Hin. apply in_app_or in Hin. destruct Hin as [Hin|Hin].
      * destruct e; simpl in Eh; injection Eh as <- <-;
          simpl in Hin; try contradiction.
        destruct Hin as [<-|[]]. reflexivity.
      * apply Htoasts. exact Hin.
    + rewrite length_app, Hcount.
      destruct e; simpl in Eh; injection Eh as <- <-; reflexivity.
Qed.

(** Only the status select changes what the E-FIR page lists: after any
    sequence of other events (typing, submitting, opening and closing the
    dialogs) the tiles and the rows are what they were; in particular a
    submission adds no case to the table. *)
Theorem efir_view_changes_only_by_status :
  forall (cases : list EFir.EFIRCase) (st : EFir.State)
         (events : list EFir.Event),
    (forall e, In e events ->
               match e with EFir.ChooseStatus _ => False | _ => True end) ->
    EFir.render cases (fst (EFir.run cases st events)) =
    EFir.render cases st.
Proof.
  intros cases st events. revert st.
  induction events as [|e events IH]; intros st Hev; simpl; [reflexivity|].
  destruct (EFir.handle cases st e) as [st' shown] eqn:Eh.
  destruct (EFir.run cases st' events) as [final later] eqn:Er.
  simpl. specialize (IH st'). rewrite Er in IH. simpl in IH.
  rewrite IH by (intros e' He'; apply Hev; right; exact He').
  pose proof (Hev e (or_introl eq_refl)) as He.
  destruct e; simpl in Eh; injection Eh as <- _; try reflexivity.
  contradiction.
Qed.

Lemma efir_view_changes_only_by_status_witness :
  EFir.render EFir.mockEFIRCases
    (fst (EFir.run EFir.mockEFIRCases EFir.initialState
            [ EFir.ClickGenerate;
              EFir.Input EFir.Key.touristId "TID-2024-007";
              EFir.Submit; EFir.ClickAcknowledged ])) =
  EFir.render EFir.mockEFIRCases EFir.initialState.
Proof.
  apply (efir_view_changes_only_by_status EFir.mockEFIRCases
           EFir.initialState).
  intros e [<-|[<-|[<-|[<-|[]]]]]; exact I.
Defined.

(** ** Icons *)

(** A case type gets the clipboard icon exactly when it is none of the
    four case types, and the four case types have four different icons. *)
Theorem case_type_icon_default :
  (forall type : string,
      EFir.getCaseTypeIcon type = EFir.getCaseTypeIcon "" <->
      ~ In type EFir.caseTypes) /\
  (forall t1 t2 : string,
      In t1 EFir.caseTypes -> In t2 EFir.caseTypes ->
      EFir.getCaseTypeIcon t1 = EFir.getCaseTypeIcon t2 -> t1 = t2).
Proof.
  split.
  - intros type. unfold EFir.getCaseTypeIcon, JsString.strictEq. simpl.
    destruct (String.eqb_spec type "missing");
      [subst; split; [discriminate | intros H; exfalso; apply H; auto]|].
    destruct (String.eqb_spec type "theft");
      [subst; split; [discriminate | intros H; exfalso; apply H; auto]|].
    destruct (String.eqb_spec type "emergency");
      [subst; split; [discriminate | intros H; exfalso; apply H; auto]|].
    destruct (String.eqb_spec type "accident");
      [subst; split; [discriminate | intros H; exfalso; apply H; auto]|].
    split; [|reflexivity]. intros _ H. intuition congruence.
  - intros t1 t2 H1 H2. simpl in H1, H2.
    intuition (subst; try reflexivity; discriminate).
Qed.

Lemma case_type_icon_default_witness :
  EFir.getCaseTypeIcon "constructor" = EFir.getCaseTypeIcon "".
Proof.
  apply (proj1 case_type_icon_default "constructor").
  simpl. intuition discriminate.
Defined.

(** An alert type gets the default icon exactly when it is none of the
    four alert types; panic and emergency share their icon, and otherwise
    different alert types have different icons. *)
Theorem alert_icon_default :
  (forall type : string,
      Alerts.getAlertIcon type = Alerts.getAlertIcon "" <->
      ~ In type Alerts.alertTypes) /\
  Alerts.getAlertIcon "panic" = Alerts.getAlertIcon "emergency" /\
  (forall t1 t2 : string,
      In t1 Alerts.alertTypes -> In t2 Alerts.alertTypes ->
      Alerts.getAlertIcon t1 = Alerts.getAlertIcon t2 ->
      t1 = t2 \/ (In t1 ["panic"; "emergency"] /\
                  In t2 ["panic"; "emergency"])).
Proof.
  split; [|split; [reflexivity|]].
  - intros type. unfold Alerts.getAlertIcon, JsString.strictEq. simpl.
    destruct (String.eqb_spec type "panic");
      [subst; split; [discriminate | intros H; exfalso; apply H; auto]|].
    destruct (String.eqb_spec type "emergency");
      [subst; split; [discriminate | intros H; exfalso; apply H; auto]|].
    destruct (String.eqb_spec type "geo-fence");
      [subst; split; [discriminate | intros H; exfalso; apply H; auto]|].
    destruct (String.eqb_spec type "anomaly");
      [subst; split; [discriminate | intros H; exfalso; apply H; auto]|].
    split; [|reflexivity]. intros _ H. intuition congruence.
  - intros t1 t2 H1 H2. simpl in H1, H2. simpl.
    intuition (subst; auto; try discriminate).
Qed.

Lemma alert_icon_default_witness :
  Alerts.getAlertIcon "toString" = Alerts.getAlertIcon "".
Proof.
  apply (proj1 alert_icon_default "toString").
  simpl. intuition discriminate.
Defined.

(** ** Exceptions of the digital-ID filter *)

Section RuntimeExceptions.
Import Runtime.
Context {CM : JsString.CaseMapping}.

(** [filter] returns exactly when the callback returns on every
    element. *)
Lemma filter_returns_iff {A : Type} (f : A -> completion bool)
    (l : list A) :
  (exists result, filter f l = Normal result) <->
  (forall x, In x l -> exists b, f x = Normal b).
Proof.
  split.
  - induction l as [|x l IH]; simpl; intros [result H] y Hy; [contradiction|].
    destruct (f x) as [b|e] eqn:E; simpl in H; [|discriminate].
    destruct (filter f l) as [kept|e] eqn:F; simpl in H; [|discriminate].
    destruct Hy as [<-|Hy]; [eauto|]. apply IH; eauto.
  - intros H. rewrite filter_normal by exact H. eauto.
Qed.

(** The first exception of the callback is the outcome of [filter]. *)
Lemma filter_throws {A : Type} (f : A -> completion bool) (l : list A)
    (e : string) :
  (forall x e', f x = Throw e' -> e' = e) ->
  (exists x, In x l /\ exists e', f x = Throw e') ->
  filter f l = Throw e.
Proof.
  intros Honly [x [Hx [e' He']]].
  induction l as [|y l IH]; simpl; [contradiction|].
  destruct (f y) as [b|e''] eqn:E; simpl.
  - destruct Hx as [->|Hx]; [congruence|].
    rewrite (IH Hx). reflexivity.
  - rewrite (Honly y e'' E). reflexivity.
Qed.

Lemma OnDigitalIds_matches_error
    (searchTerm statusFilter nationalityFilter : string)
    (o : OnDigitalIds.TouristObject) (e : string) :
  OnDigitalIds.matches searchTerm statusFilter nationalityFilter o = Throw e ->
  e = "TypeError".
Proof.
  unfold OnDigitalIds.matches.
  destruct (OnDigitalIds.name o) as [| |n]; simpl;
    try (intros H; injection H as <-; reflexivity).
  destruct (JsString.includes _ _); simpl; [discriminate|].
  destruct (OnDigitalIds.digitalId o) as [| |d]; simpl;
    try (intros H; injection H as <-; reflexivity).
  discriminate.
Qed.

Lemma OnDigitalIds_matches_returns
    (searchTerm statusFilter nationalityFilter n : string)
    (o : OnDigitalIds.TouristObject) :
  OnDigitalIds.name o = Str n ->
  (exists b,
      OnDigitalIds.matches searchTerm statusFilter nationalityFilter o =
      Normal b) <->
  (Substring (JsString.toLowerCase searchTerm) (JsString.toLowerCase n) \/
   exists d, OnDigitalIds.digitalId o = Str d).
Proof.
  intros Hn. unfold OnDigitalIds.matches. rewrite Hn. simpl.
  rewrite <- includes_Substring.
  destruct (JsString.includes _ _); simpl.
  - split; eauto.
  - destruct (OnDigitalIds.digitalId o) as [| |d]; simpl.
    + split; [intros [b H]; discriminate|].
      intros [H|[d H]]; discriminate.
    + split; [intros [b H]; discriminate|].
      intros [H|[d H]]; discriminate.
    + split; eauto.
Qed.

End RuntimeExceptions.

(** One object whose name is [undefined], [null] or missing makes the
    digital-ID filter throw a [TypeError], for every search term and every
    selection, the empty search term and ["all"] included: the page then
    shows no row at all. *)
Theorem missing_name_throws {CM : JsString.CaseMapping} :
  forall (data : list Runtime.OnDigitalIds.TouristObject)
         (searchTerm statusFilter nationalityFilter : string)
         (o : Runtime.OnDigitalIds.TouristObject),
    In o data ->
    (forall n, Runtime.OnDigitalIds.name o <> Runtime.Str n) ->
    Runtime.OnDigitalIds.filteredData data searchTerm statusFilter
                                      nationalityFilter =
    Runtime.Throw "TypeError".
Proof.
  intros data searchTerm statusFilter nationalityFilter o Ho Hname.
  unfold Runtime.OnDigitalIds.filteredData. apply filter_throws.
  - intros x e. apply OnDigitalIds_matches_error.
  - exists o. split; [exact Ho|].
    unfold Runtime.OnDigitalIds.matches.
    destruct (Runtime.OnDigitalIds.name o) as [| |n]; simpl; eauto.
    exfalso. apply (Hname n). reflexivity.
Qed.

Lemma missing_name_throws_witness :
  Runtime.OnDigitalIds.filteredData (CM := JsString.asciiCaseMapping)
    [ Runtime.OnDigitalIds.mkTouristObject
        (Runtime.Str "John Smith") (Runtime.Str "TID-2024-001")
        (Runtime.Str "USA") (Runtime.Str "active");
      Runtime.OnDigitalIds.mkTouristObject
        Runtime.Undefined (Runtime.Str "TID-2024-002")
        (Runtime.Str "France") (Runtime.Str "active") ]
    "" "all" "all" = Runtime.Throw "TypeError".
Proof.
  apply (missing_name_throws (CM := JsString.asciiCaseMapping) _ "" "all" "all"
           (Runtime.OnDigitalIds.mkTouristObject
              Runtime.Undefined (Runtime.Str "TID-2024-002")
              (Runtime.Str "France") (Runtime.Str "active"))).
  - simpl. auto.
  - simpl. discriminate.
Defined.

(** When every name is a string, the digital-ID filter returns exactly
    when each object either has a string identifier or has a name that
    contains the search term: the identifier is lowercased only after the
    name failed to match, so a missing identifier goes unnoticed under the
    empty search term and throws under a term the name lacks. *)
Theorem missing_identifier_throws_unless_name_matches
    {CM : JsString.CaseMapping} :
  forall (data : list Runtime.OnDigitalIds.TouristObject)
         (searchTerm statusFilter nationalityFilter : string),
    (forall o, In o data -> exists n, Runtime.OnDigitalIds.name o =
                                      Runtime.Str n) ->
    ((exists result,
         Runtime.OnDigitalIds.filteredData data searchTerm statusFilter
                                           nationalityFilter =
         Runtime.Normal result) <->
     (forall o n,
         In o data -> Runtime.OnDigitalIds.name o = Runtime.Str n ->
         Substring (JsString.toLowerCase searchTerm)
                   (JsString.toLowerCase n) \/
         exists d, Runtime.OnDigitalIds.digitalId o = Runtime.Str d)) /\
    (searchTerm = "" ->
     exists result,
       Runtime.OnDigitalIds.filteredData data searchTerm statusFilter
                                         nationalityFilter =
       Runtime.Normal result).
Proof.
  intros data searchTerm statusFilter nationalityFilter Hnames.
  assert (Iff : (exists result,
                    Runtime.OnDigitalIds.filteredData data searchTerm
                      statusFilter nationalityFilter =
                    Runtime.Normal result) <->
                (forall o n,
                    In o data ->
                    Runtime.OnDigitalIds.name o = Runtime.Str n ->
                    Substring (JsString.toLowerCase searchTerm)
                              (JsString.toLowerCase n) \/
                    exists d, Runtime.OnDigitalIds.digitalId o =
                              Runtime.Str d)).
  { unfold Runtime.OnDigitalIds.filteredData. rewrite filter_returns_iff.
    split.
    - intros H o n Ho Hn.
      apply (OnDigitalIds_matches_returns searchTerm statusFilter
               nationalityFilter n o Hn). apply H. exact Ho.
    - intros H o Ho. destruct (Hnames o Ho) as [n Hn].
      apply (OnDigitalIds_matches_returns searchTerm statusFilter
               nationalityFilter n o Hn). apply (H o n Ho Hn). }
  split; [exact Iff|].
  intros ->. apply Iff. intros o n _ _. left.
  rewrite toLowerCase_empty. apply Substring_empty.
Qed.

Lemma missing_identifier_throws_unless_name_matches_witness :
  (exists result,
      Runtime.OnDigitalIds.filteredData (CM := JsString.asciiCaseMapping)
        [ Runtime.OnDigitalIds.mkTouristObject
            (Runtime.Str "Marie Dubois") Runtime.Undefined
            (Runtime.Str "France") (Runtime.Str "active") ]
        "" "all" "all" = Runtime.Normal result) /\
  Runtime.OnDigitalIds.filteredData (CM := JsString.asciiCaseMapping)
    [ Runtime.OnDigitalIds.mkTouristObject
        (Runtime.Str "Marie Dubois") Runtime.Undefined
        (Runtime.Str "France") (Runtime.Str "active") ]
    "john" "all" "all" = Runtime.Throw "TypeError".
Proof.
  split; [|reflexivity].
  apply (missing_identifier_throws_unless_name_matches
      (CM := JsString.asciiCaseMapping)
           [ Runtime.OnDigitalIds.mkTouristObject
               (Runtime.Str "Marie Dubois") Runtime.Undefined
               (Runtime.Str "France") (Runtime.Str "active") ]
           "" "all" "all").
  - intros o [<-|[]]. simpl. eauto.
  - reflexivity.
Defined.

(** ** How the dimensions of a filter combine *)

Lemma filter_andb {A : Type} (f g : A -> bool) (l : list A) :
  filter (fun x => f x && g x) l = filter g (filter f l).
Proof.
  induction l as [|x l IH]; simpl; [reflexivity|].
  destruct (f x); simpl; [|exact IH].
  destruct (g x); rewrite IH; reflexivity.
Qed.

Lemma filter_swap {A : Type} (f g : A -> bool) (l : list A) :
  filter g (filter f l) = filter f (filter g l).
Proof.
  rewrite <- !filter_andb. apply filter_ext. intros x. apply andb_comm.
Qed.

Lemma DigitalIds_matches_split {CM : JsString.CaseMapping}
    (searchTerm statusFilter nationalityFilter : string)
    (r : DigitalIds.TouristRecord) :
  DigitalIds.matches searchTerm statusFilter nationalityFilter r =
  DigitalIds.matches searchTerm "all" "all" r &&
  (DigitalIds.matches "" statusFilter "all" r &&
   DigitalIds.matches "" "all" nationalityFilter r).
Proof.
  unfold DigitalIds.matches. rewrite toLowerCase_empty.
  rewrite !includes_empty. simpl.
  rewrite !andb_true_r, andb_assoc. reflexivity.
Qed.

(** Filtering by several dimensions at once is filtering by one dimension
    after the other, in any order: on the digital-ID page by search, then
    status, then nationality, or by nationality, then status, then search;
    on the alerts page by status then priority, or priority then
    status. *)
Theorem filters_compose_by_dimension {CM : JsString.CaseMapping} :
  (forall data searchTerm statusFilter nationalityFilter,
      DigitalIds.filteredData data searchTerm statusFilter
                              nationalityFilter =
      DigitalIds.filteredData
        (DigitalIds.filteredData
           (DigitalIds.filteredData data searchTerm "all" "all")
           "" statusFilter "all")
        "" "all" nationalityFilter /\
      DigitalIds.filteredData data searchTerm statusFilter
                              nationalityFilter =
      DigitalIds.filteredData
        (DigitalIds.filteredData
           (DigitalIds.filteredData data "" "all" nationalityFilter)
           "" statusFilter "all")
        searchTerm "all" "all") /\
  (forall alerts statusFilter priorityFilter,
      Alerts.filteredAlerts alerts statusFilter priorityFilter =
      Alerts.filteredAlerts
        (Alerts.filteredAlerts alerts statusFilter "all")
        "all" priorityFilter /\
      Alerts.filteredAlerts alerts statusFilter priorityFilter =
      Alerts.filteredAlerts
        (Alerts.filteredAlerts alerts "all" priorityFilter)
        statusFilter "all").
Proof.
  split.
  - intros data searchTerm statusFilter nationalityFilter.
    unfold DigitalIds.filteredData.
    assert (E : filter (DigitalIds.matches searchTerm statusFilter
                                           nationalityFilter) data =
                filter (DigitalIds.matches "" "all" nationalityFilter)
                  (filter (DigitalIds.matches "" statusFilter "all")
                     (filter (DigitalIds.matches searchTerm "all" "all")
                        data))).
    { rewrite <- !filter_andb. apply filter_ext. intros r.
      rewrite DigitalIds_matches_split, andb_assoc. reflexivity. }
    split; [exact E|]. rewrite E.
    rewrite <- !filter_andb. apply filter_ext. intros r.
    destruct (DigitalIds.matches searchTerm "all" "all" r),
      (DigitalIds.matches "" statusFilter "all" r),
      (DigitalIds.matches "" "all" nationalityFilter r); reflexivity.
  - intros alerts statusFilter priorityFilter.
    unfold Alerts.filteredAlerts.
    assert (E : filter (Alerts.matches statusFilter priorityFilter) alerts =
                filter (Alerts.matches "all" priorityFilter)
                  (filter (Alerts.matches statusFilter "all") alerts)).
    { rewrite <- filter_andb. apply filter_ext. intros a.
      unfold Alerts.matches. simpl. rewrite andb_true_r. reflexivity. }
    split; [exact E|]. rewrite E. apply filter_swap.
Qed.

(** ** The tiles of the alerts page under a selection *)

Lemma count_uniform_status (s : string) (l : list Alerts.Alert)
    (selected : string) :
  (forall a, In a l -> Alerts.status a = selected) ->
  List.length (filter (fun a => JsString.strictEq (Alerts.status a) s) l) =
  if JsString.strictEq selected s then List.length l else 0.
Proof.
  intros H. induction l as [|a l IH]; simpl.
  - destruct (JsString.strictEq selected s); reflexivity.
  - rewrite (H a (or_introl eq_refl)).
    assert (IH' := IH (fun b Hb => H b (or_intror Hb))).
    destruct (JsString.strictEq selected s); simpl; rewrite IH';
      reflexivity.
Qed.

(** On the alerts page, under a status selection other than ["all"], the
    tile of the selected status counts all the rows of the table and the
    tiles of the other statuses show 0. *)
Theorem alerts_tiles_under_status_selection :
  forall (alerts : list Alerts.Alert) (statusFilter priorityFilter : string),
    statusFilter <> "all" ->
    statValue "Active Alerts"
      (Alerts.statTiles
         (Alerts.render alerts statusFilter priorityFilter)) =
    Some (JsString.toString
            (if JsString.strictEq statusFilter "active"
             then List.length
                    (Alerts.tableRows
                       (Alerts.render alerts statusFilter priorityFilter))
             else 0)) /\
    statValue "Under Investigation"
      (Alerts.statTiles
         (Alerts.render alerts statusFilter priorityFilter)) =
    Some (JsString.toString
            (if JsString.strictEq statusFilter "investigating"
             then List.length
                    (Alerts.tableRows
                       (Alerts.render alerts statusFilter priorityFilter))
             else 0)) /\
    statValue "Resolved Today"
      (Alerts.statTiles
         (Alerts.render alerts statusFilter priorityFilter)) =
    Some (JsString.toString
            (if JsString.strictEq statusFilter "resolved"
             then List.length
                    (Alerts.tableRows
                       (Alerts.render alerts statusFilter priorityFilter))
             else 0)).
Proof.
  intros alerts statusFilter priorityFilter Hsel.
  assert (U : forall a,
             In a (Alerts.filteredAlerts alerts statusFilter priorityFilter) ->
             Alerts.status a = statusFilter).
  { intros a Ha. unfold Alerts.filteredAlerts in Ha.
    apply filter_In in Ha. destruct Ha as [_ Ha].
    apply Alerts_matches_iff in Ha. tauto. }
  unfold Alerts.render, Alerts.stats. simpl.
  rewrite !(count_uniform_status _ _ statusFilter U). repeat split.
Qed.

Lemma alerts_tiles_under_status_selection_witness :
  statValue "Active Alerts"
    (Alerts.statTiles (Alerts.render Alerts.mockAlerts "active" "all")) =
  Some "1" /\
  statValue "Resolved Today"
    (Alerts.statTiles (Alerts.render Alerts.mockAlerts "active" "all")) =
  Some "0".
Proof.
  destruct (alerts_tiles_under_status_selection Alerts.mockAlerts
              "active" "all") as [Hactive [_ Hresolved]].
  - discriminate.
  - split; [exact Hactive | exact Hresolved].
Defined.

(** ** An empty collection *)

(** With no record at all every page shows an empty table and zeros in
    all its tiles, under every search term and selection. *)
Theorem empty_collection_views {CM : JsString.CaseMapping} :
  (forall searchTerm statusFilter nationalityFilter,
      DigitalIds.render [] searchTerm statusFilter nationalityFilter =
      DigitalIds.mkView
        [ mkStat "Total Records" "0"; mkStat "Active Tourists" "0";
          mkStat "Alert Status" "0"; mkStat "Nationalities" "0" ] []) /\
  (forall statusFilter priorityFilter,
      Alerts.render [] statusFilter priorityFilter =
      Alerts.mkView 0
        [ mkStat "Active Alerts" "0"; mkStat "High Priority" "0";
          mkStat "Under Investigation" "0"; mkStat "Resolved Today" "0" ]
        []) /\
  (forall st,
      EFir.render [] st =
      EFir.mkView
        [ mkStat "Total Cases" "0"; mkStat "Active Cases" "0";
          mkStat "Resolved Today" "0"; mkStat "High Priority" "0" ] []) /\
  (forall st, EFir.generatedFIRNumber (fst (EFir.handleSubmit [] st)) =
              "FIR-2024-001").
Proof. repeat split. Qed.

(** ** The search term's case *)

(** Two search terms of ASCII characters that differ only in the case of
    their letters select the same records, from every collection. *)
Theorem search_ignores_case_of_term {CM : JsString.CaseMapping} :
  forall (data : list DigitalIds.TouristRecord)
         (searchTerm searchTerm' statusFilter nationalityFilter : string),
    JsString.isAscii searchTerm = true ->
    JsString.isAscii searchTerm' = true ->
    equalIgnoringCase searchTerm searchTerm' = true ->
    DigitalIds.filteredData data searchTerm statusFilter nationalityFilter =
    DigitalIds.filteredData data searchTerm' statusFilter nationalityFilter.
Proof.
  intros data q q' statusFilter nationalityFilter Hq Hq' Hsame.
  unfold DigitalIds.filteredData. apply filter_ext. intros r.
  unfold DigitalIds.matches.
  rewrite (JsString.toLowerCase_ascii q Hq).
  rewrite (JsString.toLowerCase_ascii q' Hq').
  apply asciiLower_eq_iff in Hsame. rewrite Hsame. reflexivity.
Qed.

Lemma search_ignores_case_of_term_witness :
  DigitalIds.filteredData
      (CM := JsString.asciiCaseMapping)
      DigitalIds.mockTouristData "MaR" "all" "all" =
  DigitalIds.filteredData
      (CM := JsString.asciiCaseMapping)
      DigitalIds.mockTouristData "mAr" "all" "all".
Proof.
  apply (search_ignores_case_of_term
      (CM := JsString.asciiCaseMapping)
      DigitalIds.mockTouristData
           "MaR" "mAr" "all" "all"); reflexivity.
Defined.

(** ** The tiles against each other *)

Lemma disjoint_counts {A : Type} (p q : A -> bool) (l : list A) :
  (forall x, p x = true -> q x = false) ->
  List.length (filter p l) + List.length (filter q l) <= List.length l.
Proof.
  intros H. induction l as [|x l IH]; simpl; [lia|].
  destruct (p x) eqn:P; [rewrite (H x P)|destruct (q x)]; simpl; lia.
Qed.

Lemma filter_count_le {A : Type} (p : A -> bool) (l : list A) :
  List.length (filter p l) <= List.length l.
Proof.
  induction l as [|x l IH]; simpl; [lia|]. destruct (p x); simpl; lia.
Qed.

Lemma nodup_count (l : list string) :
  List.length (nodup string_dec l) <= List.length l /\
  (List.length (nodup string_dec l) = 0 <-> List.length l = 0).
Proof.
  split.
  - induction l as [|x l IH]; simpl; [lia|].
    destruct (in_dec string_dec x l); simpl; lia.
  - destruct l as [|x l]; [simpl; tauto|]. split; [|simpl; discriminate].
    intros H. exfalso.
    assert (Hin : In x (nodup string_dec (x :: l)))
      by (apply nodup_In; left; reflexivity).
    destruct (nodup string_dec (x :: l)); [contradiction|discriminate].
Qed.

(** The tiles of a page fit together.  On the digital-ID page "Active
    Tourists" and "Alert Status" together do not exceed "Total Records",
    and "Nationalities" is at most "Total Records" and is 0 only for an
    empty collection.  On the E-FIR page "Active Cases" and "Resolved
    Today" together, and "High Priority", do not exceed "Total Cases". *)
Theorem tiles_fit_together :
  (forall data : list DigitalIds.TouristRecord,
      exists total active alert countries : nat,
        DigitalIds.stats data =
        [ mkStat "Total Records" (JsString.toString total);
          mkStat "Active Tourists" (JsString.toString active);
          mkStat "Alert Status" (JsString.toString alert);
          mkStat "Nationalities" (JsString.toString countries) ] /\
        total = List.length data /\
        active + alert <= total /\
        countries <= total /\
        (countries = 0 <-> total = 0)) /\
  (forall cases : list EFir.EFIRCase,
      exists total active resolved high : nat,
        EFir.stats cases =
        [ mkStat "Total Cases" (JsString.toString total);
          mkStat "Active Cases" (JsString.toString active);
          mkStat "Resolved Today" (JsString.toString resolved);
          mkStat "High Priority" (JsString.toString high) ] /\
        total = List.length cases /\
        active + resolved <= total /\
        high <= total).
Proof.
  split.
  - intros data. do 4 eexists. split; [reflexivity|].
    split; [reflexivity|]. split; [|split].
    + apply disjoint_counts. intros r Hr.
      apply strictEq_eq in Hr. rewrite Hr. reflexivity.
    + rewrite <- (length_map DigitalIds.nationality data).
      apply nodup_count.
    + rewrite <- (length_map DigitalIds.nationality data).
      apply nodup_count.
  - intros cases. do 4 eexists. split; [reflexivity|].
    split; [reflexivity|]. split.
    + apply disjoint_counts. intros c Hc.
      apply orb_true_iff in Hc.
      destruct Hc as [Hc|Hc]; apply strictEq_eq in Hc; rewrite Hc;
        reflexivity.
    + apply filter_count_le.
Qed.

(** ** Instances *)

Lemma input_change_updates_one_field_witness :
  EFir.getField
    (EFir.formData
       (EFir.handleInputChange EFir.Key.location "India Gate"
          (EFir.handleInputChange EFir.Key.touristId "TID-2024-007"
             EFir.initialState)))
    EFir.Key.touristId = "TID-2024-007".
Proof.
  destruct (input_change_updates_one_field EFir.Key.location "India Gate"
              (EFir.handleInputChange EFir.Key.touristId "TID-2024-007"
                 EFir.initialState)) as [_ [Hothers _]].
  rewrite (Hothers EFir.Key.touristId); [reflexivity | discriminate].
Defined.

Lemma input_changes_compose_witness :
  EFir.handleInputChange EFir.Key.location "India Gate"
    (EFir.handleInputChange EFir.Key.touristId "TID-2024-007"
       EFir.initialState) =
  EFir.handleInputChange EFir.Key.touristId "TID-2024-007"
    (EFir.handleInputChange EFir.Key.location "India Gate"
       EFir.initialState).
Proof.
  destruct (input_changes_compose EFir.initialState) as [_ [Hcomm _]].
  apply Hcomm. discriminate.
Defined.

Lemma efir_only_one_reference_number_witness :
  List.length
    (snd (EFir.run EFir.mockEFIRCases EFir.initialState
            [ EFir.ClickGenerate; EFir.Submit;
              EFir.ClickAcknowledged; EFir.ClickGenerate;
              EFir.Input EFir.Key.caseType "theft"; EFir.Submit ])) = 2.
Proof.
  destruct (efir_only_one_reference_number EFir.mockEFIRCases
              EFir.initialState
              [ EFir.ClickGenerate; EFir.Submit;
                EFir.ClickAcknowledged; EFir.ClickGenerate;
                EFir.Input EFir.Key.caseType "theft"; EFir.Submit ])
    as [_ [_ Hcount]].
  rewrite Hcount. reflexivity.
Defined.
